(** * Scheduler core of the FreeRTOS multitasking labs

    A shallow embedding of the manual time-sharing scheduler
    (00-multitasking/lab2/main/lab2.c), of the cooperative scheduler
    (00-multitasking/lab3/main/lab3.c) and of the two tasks of the
    priority-inversion demonstration (02-tasks/step1/main/step1.c),
    together with the properties the specification states about them and
    further properties of the code.

    Conventions.
    - C unsigned integers are [Z] values with the wrap-around written out
      ([u32], [u64]); [int64_t] casts go through [i64].
    - C [float] is IEEE-754 binary32, taken from the standard library's
      [SpecFloat] at precision 24 and maximal exponent 128.
    - A C function that touches globals, reads the timer or prints is a
      computation [M A]: it maps a state to a result, a new state and the
      list of events it produced, oldest first. *)

From Stdlib Require Import ZArith List Bool Lia String.
From Stdlib Require Import Floats.SpecFloat.
Import ListNotations.
Open Scope Z_scope.

(** ** Machine integers *)

Definition u32 (z : Z) : Z := z mod 2 ^ 32.
Definition u64 (z : Z) : Z := z mod 2 ^ 64.
(** Conversion to [int64_t] (two's complement). *)
Definition i64 (z : Z) : Z := (z + 2 ^ 63) mod 2 ^ 64 - 2 ^ 63.

(** ** Single-precision floats *)

Module Binary32.
Definition prec : Z := 24.
Definition emax : Z := 128.
Definition float := spec_float.

(** [(float)n] for an unsigned integer [n]: round to nearest, ties to even. *)
Definition of_uint (n : Z) : float := binary_normalize prec emax n 0 false.
Definition div : float -> float -> float := SFdiv prec emax.
Definition mul : float -> float -> float := SFmul prec emax.
Definition sub : float -> float -> float := SFsub prec emax.
Definition add : float -> float -> float := SFadd prec emax.
(** [0.0f] and [100.0f]. *)
Definition zero : float := S754_zero false.
Definition hundred : float := S754_finite false 13107200 (-17).
(** [x <= y], false when either side is a NaN. *)
Definition leb (x y : float) : bool :=
  match SFcompare x y with
  | Some Lt | Some Eq => true
  | _ => false
  end.
(** The integer nearest to [M / 2 ^ k], ties to even: what the rounding
of the operations computes when it drops [k] bits. *)
Definition round_half_even (M k : Z) : Z :=
  let q := M / 2 ^ k in
  let rem := M mod 2 ^ k in
  let h := 2 ^ (k - 1) in
  if rem <? h then q
  else if rem =? h then (if Z.even q then q else q + 1)
  else q + 1.
End Binary32.

(** ** Computations over a state, with an event log *)

Section Sim.
Context {St Ev : Type}.

Definition M (A : Type) : Type := St -> A * St * list Ev.

Definition value {A} (m : M A) (s : St) : A := fst (fst (m s)).
Definition exec {A} (m : M A) (s : St) : St := snd (fst (m s)).
Definition events {A} (m : M A) (s : St) : list Ev := snd (m s).

Definition ret {A} (a : A) : M A := fun s => (a, s, []).
Definition bind {A B} (m : M A) (k : A -> M B) : M B :=
  fun s =>
    let r1 := m s in
    let r2 := k (fst (fst r1)) (snd (fst r1)) in
    (fst (fst r2), snd (fst r2), snd r1 ++ snd r2).
Definition gets {A} (f : St -> A) : M A := fun s => (f s, s, []).
Definition modify (f : St -> St) : M unit := fun s => (tt, f s, []).
Definition emit (e : Ev) : M unit := fun s => (tt, s, [e]).

(** [for (j = 0; j < n; j++) body] *)
Fixpoint repeatM (n : nat) (body : M unit) : M unit :=
  match n with
  | O => ret tt
  | S k => bind body (fun _ => repeatM k body)
  end.

(** [for (i = 0; i < len; i++) body(a[i])] *)
Fixpoint forM {A} (l : list A) (body : A -> M unit) : M unit :=
  match l with
  | [] => ret tt
  | a :: r => bind (body a) (fun _ => forM r body)
  end.
End Sim.

Arguments M : clear implicits.

Declare Scope sim_scope.
Delimit Scope sim_scope with sim.
Notation "x <- m ;; k" := (bind m (fun x => k))
  (at level 61, m at next level, right associativity) : sim_scope.
Notation "m ;; k" := (bind m (fun _ => k))
  (at level 61, right associativity) : sim_scope.

(** ** The time-sharing scheduler (lab2.c) *)

Module TimeSharing.
Local Open Scope sim_scope.

Definition LED1_PIN : Z := 2.
Definition LED2_PIN : Z := 4.
Definition LED3_PIN : Z := 5.
Definition LED4_PIN : Z := 18.

Inductive task_id_t := TASK_SENSOR | TASK_PROCESS | TASK_ACTUATOR | TASK_DISPLAY.
(** The enumerator that closes [task_id_t]. *)
Definition TASK_COUNT : Z := 4.

Definition task_id_eqb (a b : task_id_t) : bool :=
  match a, b with
  | TASK_SENSOR, TASK_SENSOR | TASK_PROCESS, TASK_PROCESS
  | TASK_ACTUATOR, TASK_ACTUATOR | TASK_DISPLAY, TASK_DISPLAY => true
  | _, _ => false
  end.

Definition TIME_SLICE_MS : Z := 50.

(** The file-scope variables, the function-local statics, and the
    microsecond timer: [timer k] is what the [k]-th call of
    [esp_timer_get_time] returns, [timer_reads] counts the calls made. *)
Record state := mkState {
  task_counter : Z;
  context_switch_time : Z;
  context_switches : Z;
  run_manual_scheduler : bool;
  current_time_slice_ms : Z;
  sensor_count : Z;
  process_count : Z;
  actuator_count : Z;
  display_count : Z;
  round_count : Z;
  timer : nat -> Z;
  timer_reads : nat
}.

Definition set_task_counter (v : Z) (s : state) : state :=
  mkState v (context_switch_time s) (context_switches s) (run_manual_scheduler s)
    (current_time_slice_ms s) (sensor_count s) (process_count s) (actuator_count s)
    (display_count s) (round_count s) (timer s) (timer_reads s).
Definition set_context_switch_time (v : Z) (s : state) : state :=
  mkState (task_counter s) v (context_switches s) (run_manual_scheduler s)
    (current_time_slice_ms s) (sensor_count s) (process_count s) (actuator_count s)
    (display_count s) (round_count s) (timer s) (timer_reads s).
Definition set_context_switches (v : Z) (s : state) : state :=
  mkState (task_counter s) (context_switch_time s) v (run_manual_scheduler s)
    (current_time_slice_ms s) (sensor_count s) (process_count s) (actuator_count s)
    (display_count s) (round_count s) (timer s) (timer_reads s).
Definition set_run_manual_scheduler (v : bool) (s : state) : state :=
  mkState (task_counter s) (context_switch_time s) (context_switches s) v
    (current_time_slice_ms s) (sensor_count s) (process_count s) (actuator_count s)
    (display_count s) (round_count s) (timer s) (timer_reads s).
Definition set_current_time_slice_ms (v : Z) (s : state) : state :=
  mkState (task_counter s) (context_switch_time s) (context_switches s)
    (run_manual_scheduler s) v (sensor_count s) (process_count s) (actuator_count s)
    (display_count s) (round_count s) (timer s) (timer_reads s).
Definition set_sensor_count (v : Z) (s : state) : state :=
  mkState (task_counter s) (context_switch_time s) (context_switches s)
    (run_manual_scheduler s) (current_time_slice_ms s) v (process_count s)
    (actuator_count s) (display_count s) (round_count s) (timer s) (timer_reads s).
Definition set_process_count (v : Z) (s : state) : state :=
  mkState (task_counter s) (context_switch_time s) (context_switches s)
    (run_manual_scheduler s) (current_time_slice_ms s) (sensor_count s) v
    (actuator_count s) (display_count s) (round_count s) (timer s) (timer_reads s).
Definition set_actuator_count (v : Z) (s : state) : state :=
  mkState (task_counter s) (context_switch_time s) (context_switches s)
    (run_manual_scheduler s) (current_time_slice_ms s) (sensor_count s)
    (process_count s) v (display_count s) (round_count s) (timer s) (timer_reads s).
Definition set_display_count (v : Z) (s : state) : state :=
  mkState (task_counter s) (context_switch_time s) (context_switches s)
    (run_manual_scheduler s) (current_time_slice_ms s) (sensor_count s)
    (process_count s) (actuator_count s) v (round_count s) (timer s) (timer_reads s).
Definition set_round_count (v : Z) (s : state) : state :=
  mkState (task_counter s) (context_switch_time s) (context_switches s)
    (run_manual_scheduler s) (current_time_slice_ms s) (sensor_count s)
    (process_count s) (actuator_count s) (display_count s) v (timer s) (timer_reads s).
Definition set_timer_reads (v : nat) (s : state) : state :=
  mkState (task_counter s) (context_switch_time s) (context_switches s)
    (run_manual_scheduler s) (current_time_slice_ms s) (sensor_count s)
    (process_count s) (actuator_count s) (display_count s) (round_count s) (timer s) v.

(** What the program does to the outside: log lines, LED levels, busy
    loops and delays. *)
Inductive event :=
| EvTaskLog (t : task_id_t) (n : Z)   (* "<Name> Task %d" *)
| EvGpio (pin level : Z)              (* gpio_set_level *)
| EvBusy (iterations : Z)             (* a busy loop over a volatile dummy *)
| EvDelayMs (ms : Z)                  (* vTaskDelay(pdMS_TO_TICKS(ms)) *)
| EvInfo (msg : string)               (* a log line without arguments *)
| EvStarted (slice : Z)               (* "Manual scheduler task started ..." *)
| EvTesting (ts : Z)                  (* "Testing time slice: %d ms" *)
| EvRoundStats (round switches total_time busy : Z)
               (cpu_utilization overhead_percentage : Binary32.float)
               (avg_per_task_us : Z)
| EvTrialReport (ts : Z) (efficiency : Binary32.float)
                (switches test_duration busy avg : Z).

Abbreviation Sim := (M state event).

Definition esp_timer_get_time : Sim Z :=
  fun s => (timer s (timer_reads s), set_timer_reads (S (timer_reads s)) s, []).

Definition gpio_set_level (pin level : Z) : Sim unit := emit (EvGpio pin level).
Definition busy_loop (n : Z) : Sim unit := emit (EvBusy n).
Definition vTaskDelay_ms (ms : Z) : Sim unit := emit (EvDelayMs ms).

(** *** Simulated task workloads *)

Definition simulate_sensor_task : Sim unit :=
  n <- gets sensor_count ;;
  modify (set_sensor_count (u32 (n + 1))) ;;
  emit (EvTaskLog TASK_SENSOR n) ;;
  gpio_set_level LED1_PIN 1 ;;
  busy_loop 10000 ;;
  gpio_set_level LED1_PIN 0.

Definition simulate_processing_task : Sim unit :=
  n <- gets process_count ;;
  modify (set_process_count (u32 (n + 1))) ;;
  emit (EvTaskLog TASK_PROCESS n) ;;
  gpio_set_level LED2_PIN 1 ;;
  busy_loop 100000 ;;
  gpio_set_level LED2_PIN 0.

Definition simulate_actuator_task : Sim unit :=
  n <- gets actuator_count ;;
  modify (set_actuator_count (u32 (n + 1))) ;;
  emit (EvTaskLog TASK_ACTUATOR n) ;;
  gpio_set_level LED3_PIN 1 ;;
  busy_loop 50000 ;;
  gpio_set_level LED3_PIN 0.

Definition simulate_display_task : Sim unit :=
  n <- gets display_count ;;
  modify (set_display_count (u32 (n + 1))) ;;
  emit (EvTaskLog TASK_DISPLAY n) ;;
  gpio_set_level LED4_PIN 1 ;;
  busy_loop 20000 ;;
  gpio_set_level LED4_PIN 0.

(** *** Manual scheduler (single cycle) *)

(** The branch the [switch (task_counter % TASK_COUNT)] takes: [Some t]
    for the [case] of task [t], [None] for [default]. *)
Definition selected_branch (counter : Z) : option task_id_t :=
  match counter mod TASK_COUNT with
  | 0 => Some TASK_SENSOR
  | 1 => Some TASK_PROCESS
  | 2 => Some TASK_ACTUATOR
  | 3 => Some TASK_DISPLAY
  | _ => None
  end.

Definition run_branch (b : option task_id_t) : Sim unit :=
  match b with
  | Some TASK_SENSOR => simulate_sensor_task
  | Some TASK_PROCESS => simulate_processing_task
  | Some TASK_ACTUATOR => simulate_actuator_task
  | Some TASK_DISPLAY => simulate_display_task
  | None => ret tt
  end.

Definition manual_scheduler : Sim unit :=
  t0 <- esp_timer_get_time ;;
  let start_time := u64 t0 in
  cs <- gets context_switches ;;
  modify (set_context_switches (u32 (cs + 1))) ;;
  busy_loop 1000 ;;
  tc <- gets task_counter ;;
  run_branch (selected_branch tc) ;;
  busy_loop 1000 ;;
  t1 <- esp_timer_get_time ;;
  let end_time := u64 t1 in
  busy <- gets context_switch_time ;;
  modify (set_context_switch_time (u64 (busy + u64 (end_time - start_time)))) ;;
  tc' <- gets task_counter ;;
  modify (set_task_counter (u32 (tc' + 1))).

(** *** Derived statistics *)

(** [cpu_utilization] in [manual_task]. *)
Definition cpu_utilization_of (busy total_time : Z) : Binary32.float :=
  if 0 <? total_time
  then Binary32.mul
         (Binary32.div (Binary32.of_uint busy) (Binary32.of_uint total_time))
         Binary32.hundred
  else Binary32.zero.

(** [overhead_percentage] in [manual_task]. *)
Definition overhead_percentage_of (cpu_utilization : Binary32.float) : Binary32.float :=
  Binary32.sub Binary32.hundred cpu_utilization.

(** [avg_per_task_us] in [manual_task]: a [uint64_t] quotient cast to
    [int64_t]. *)
Definition avg_per_task_us_of (busy switches : Z) : Z :=
  if 0 <? switches then i64 (busy / switches) else 0.

(** [efficiency] in [variable_time_slice_experiment]. *)
Definition efficiency_of (busy test_duration : Z) : Binary32.float :=
  if 0 <? test_duration
  then Binary32.mul
         (Binary32.div (Binary32.of_uint busy) (Binary32.of_uint test_duration))
         Binary32.hundred
  else Binary32.zero.

(** The average printed by the experiment: same guard, the cast is to
    [long long]. *)
Definition avg_per_invocation_of (busy switches : Z) : Z :=
  i64 (if 0 <? switches then busy / switches else 0).

(** The test that guards the report in [manual_task]. *)
Definition report_due (switches : Z) : bool :=
  (0 <? switches) && (switches mod 20 =? 0).

(** *** The background task *)

(** The [if (context_switches > 0 && context_switches % 20 == 0)] block. *)
Definition report_statistics : Sim unit :=
  cs <- gets context_switches ;;
  if report_due cs then
    r <- gets round_count ;;
    let round := u32 (r + 1) in
    modify (set_round_count round) ;;
    t <- esp_timer_get_time ;;
    let total_time := u64 t in
    busy <- gets context_switch_time ;;
    let cpu_utilization := cpu_utilization_of busy total_time in
    let overhead_percentage := overhead_percentage_of cpu_utilization in
    let avg_per_task_us := avg_per_task_us_of busy cs in
    emit (EvRoundStats round cs (i64 total_time) (i64 busy)
            cpu_utilization overhead_percentage avg_per_task_us)
  else ret tt.

(** One turn of the [while (1)] loop of [manual_task]. *)
Definition manual_task_iteration : Sim unit :=
  run <- gets run_manual_scheduler ;;
  if run : bool then
    manual_scheduler ;;
    slice <- gets current_time_slice_ms ;;
    vTaskDelay_ms slice ;;
    report_statistics
  else
    vTaskDelay_ms 100.

(** [manual_task], cut after [n] turns of its loop. *)
Definition manual_task (n : nat) : Sim unit :=
  slice <- gets current_time_slice_ms ;;
  emit (EvStarted slice) ;;
  repeatM n manual_task_iteration.

(** *** Variable time slice experiment *)

Definition time_slices : list Z := [10; 25; 50; 100; 200].
Definition iterations : nat := 50.

(** The three assignments under "Reset counters for this test". *)
Definition reset_counters : Sim unit :=
  modify (set_context_switches 0) ;;
  modify (set_context_switch_time 0) ;;
  modify (set_task_counter 0).

(** One turn of the inner loop: a dispatch, then the time slice. *)
Definition dispatch_cycle (ts : Z) : Sim unit :=
  manual_scheduler ;; vTaskDelay_ms ts.

(** [n] turns of the inner loop. *)
Definition dispatch_cycles (n : nat) (ts : Z) : Sim unit :=
  repeatM n (dispatch_cycle ts).

(** The state in which the dispatch cycles of a trial start: the counters
    reset and [test_start] read. *)
Definition trial_start (s : state) : state :=
  set_timer_reads (S (timer_reads s)) (exec reset_counters s).

(** The body of the outer loop, for the slice value [ts], around the
    inner loop [cycles]. *)
Definition timed_trial (ts : Z) (cycles : Sim unit) : Sim unit :=
  emit (EvTesting ts) ;;
  reset_counters ;;
  t0 <- esp_timer_get_time ;;
  let test_start := u64 t0 in
  cycles ;;
  t1 <- esp_timer_get_time ;;
  let test_end := u64 t1 in
  let test_duration := u64 (test_end - test_start) in
  busy <- gets context_switch_time ;;
  cs <- gets context_switches ;;
  emit (EvTrialReport ts (efficiency_of busy test_duration) cs
          (i64 test_duration) (i64 busy) (avg_per_invocation_of busy cs)) ;;
  vTaskDelay_ms 1000.

Definition slice_trial (ts : Z) : Sim unit :=
  timed_trial ts (dispatch_cycles iterations ts).

(** The experiment over a given table of slice values. *)
Definition experiment_over (slices : list Z) : Sim unit :=
  emit (EvInfo "=== Variable Time Slice Experiment ===") ;;
  modify (set_run_manual_scheduler false) ;;
  forM slices slice_trial ;;
  emit (EvInfo "Variable time slice experiment completed.") ;;
  modify (set_current_time_slice_ms TIME_SLICE_MS) ;;
  modify (set_run_manual_scheduler true).

Definition variable_time_slice_experiment : Sim unit :=
  experiment_over time_slices.

(** *** Observations on an event log *)

Definition task_index (t : task_id_t) : Z :=
  match t with
  | TASK_SENSOR => 0
  | TASK_PROCESS => 1
  | TASK_ACTUATOR => 2
  | TASK_DISPLAY => 3
  end.

(** The event with which the workload of task [t] starts. *)
Definition starts_task (t : task_id_t) (e : event) : bool :=
  match e with
  | EvTaskLog t' _ => task_id_eqb t t'
  | _ => false
  end.

Definition starts_workload (e : event) : bool :=
  match e with
  | EvTaskLog _ _ => true
  | _ => false
  end.

(** How many times task [t] was selected in a log. *)
Definition selections (t : task_id_t) (log : list event) : nat :=
  List.length (filter (starts_task t) log).

Definition workloads_run (log : list event) : nat :=
  List.length (filter starts_workload log).

(** The (slice value, context switches) pairs of the trial reports. *)
Fixpoint trial_counts (log : list event) : list (Z * Z) :=
  match log with
  | [] => []
  | EvTrialReport ts _ cs _ _ _ :: r => (ts, cs) :: trial_counts r
  | _ :: r => trial_counts r
  end.

(** The efficiencies of the trial reports. *)
Fixpoint trial_efficiencies (log : list event) : list Binary32.float :=
  match log with
  | [] => []
  | EvTrialReport _ eff _ _ _ _ :: r => eff :: trial_efficiencies r
  | _ :: r => trial_efficiencies r
  end.

(** The periodic statistics reports of a log. *)
Definition is_round_stats (e : event) : bool :=
  match e with
  | EvRoundStats _ _ _ _ _ _ _ => true
  | _ => false
  end.

Definition round_stats (log : list event) : list event :=
  filter is_round_stats log.

(** The busy time accumulated by [n] dispatches whose first timer read
    has index [k], starting from [acc]. *)
Fixpoint accumulated (tm : nat -> Z) (k : nat) (n : nat) (acc : Z) : Z :=
  match n with
  | O => acc
  | S n' =>
      accumulated tm (S (S k)) n'
        (u64 (acc + u64 (u64 (tm (S k)) - u64 (tm k))))
  end.

(** The state [s] under another timer. *)
Definition with_timer (tm : nat -> Z) (s : state) : state :=
  mkState (task_counter s) (context_switch_time s) (context_switches s)
    (run_manual_scheduler s) (current_time_slice_ms s) (sensor_count s)
    (process_count s) (actuator_count s) (display_count s) (round_count s)
    tm (timer_reads s).

(** *** Example states *)

(** The variables as initialised at boot, with a timer that advances by
    one millisecond between two reads. *)
Definition boot : state :=
  mkState 0 0 0 true TIME_SLICE_MS 0 0 0 0 0 (fun k => 1000 * Z.of_nat k) 0.

(** A state in the middle of a run, with a timer that advances by 137
    microseconds between two reads. *)
Definition midrun : state :=
  mkState 7 123456 1234 true 25 2 2 2 1 61 (fun k => 5000000 + 137 * Z.of_nat k) 9.

(** The static counter of the workload of task [t]. *)
Definition invocation_count (t : task_id_t) (s : state) : Z :=
  match t with
  | TASK_SENSOR => sensor_count s
  | TASK_PROCESS => process_count s
  | TASK_ACTUATOR => actuator_count s
  | TASK_DISPLAY => display_count s
  end.

(** The (test duration, busy time) pairs of the trial reports. *)
Fixpoint trial_times (log : list event) : list (Z * Z) :=
  match log with
  | [] => []
  | EvTrialReport _ _ _ duration busy _ :: r => (duration, busy) :: trial_times r
  | _ :: r => trial_times r
  end.

(** The state [s] with other values in the three counters. *)
Definition with_counters (tc busy cs : Z) (s : state) : state :=
  set_task_counter tc (set_context_switch_time busy (set_context_switches cs s)).

(** [demonstrate_problems]: four findings, printed. *)
Definition demonstrate_problems : Sim unit :=
  emit (EvInfo "=== Demonstrating Time-Sharing Problems ===") ;;
  emit (EvInfo "Problem 1: No priority support -> critical task may wait") ;;
  emit (EvInfo "Problem 2: Fixed time slice -> short tasks waste relative slice, long tasks get interrupted") ;;
  emit (EvInfo "Problem 3: Context switching overhead -> time wasted switching") ;;
  emit (EvInfo "Problem 4: No inter-task communication -> tasks cannot safely coordinate").

(** The variables at boot, with a timer that advances by one millisecond
    per read until it stands at 2^62. *)
Definition steady : state :=
  with_timer (fun k => Z.min (1000 * Z.of_nat k) 4611686018427387904) boot.

(** Forty context switches made, 1.2 s of busy time, the timer at 3 s. *)
Definition reporting : state :=
  mkState 40 1200000 40 true TIME_SLICE_MS 10 10 10 10 1 (fun _ => 3000000) 80.

End TimeSharing.

(** ** The cooperative scheduler (lab3.c) *)

Module Cooperative.
Local Open Scope sim_scope.

Definition LED1_PIN : Z := 2.
Definition LED2_PIN : Z := 4.
Definition LED3_PIN : Z := 5.
Definition BUTTON_PIN : Z := 0.

(** The file-scope variables, the [count] statics of the two tasks, the
    timer as in [TimeSharing], and the button: [button k] is the level
    the [k]-th call of [gpio_get_level(BUTTON_PIN)] returns. *)
Record state := mkState {
  emergency_flag : bool;
  task_start_time : Z;
  max_response_time : Z;
  task1_count : Z;
  task2_count : Z;
  timer : nat -> Z;
  timer_reads : nat;
  button : nat -> Z;
  button_reads : nat
}.

Definition set_emergency_flag (v : bool) (s : state) : state :=
  mkState v (task_start_time s) (max_response_time s) (task1_count s)
    (task2_count s) (timer s) (timer_reads s) (button s) (button_reads s).
Definition set_task_start_time (v : Z) (s : state) : state :=
  mkState (emergency_flag s) v (max_response_time s) (task1_count s)
    (task2_count s) (timer s) (timer_reads s) (button s) (button_reads s).
Definition set_max_response_time (v : Z) (s : state) : state :=
  mkState (emergency_flag s) (task_start_time s) v (task1_count s)
    (task2_count s) (timer s) (timer_reads s) (button s) (button_reads s).
Definition set_task1_count (v : Z) (s : state) : state :=
  mkState (emergency_flag s) (task_start_time s) (max_response_time s) v
    (task2_count s) (timer s) (timer_reads s) (button s) (button_reads s).
Definition set_task2_count (v : Z) (s : state) : state :=
  mkState (emergency_flag s) (task_start_time s) (max_response_time s)
    (task1_count s) v (timer s) (timer_reads s) (button s) (button_reads s).
Definition set_timer_reads (v : nat) (s : state) : state :=
  mkState (emergency_flag s) (task_start_time s) (max_response_time s)
    (task1_count s) (task2_count s) (timer s) v (button s) (button_reads s).
Definition set_button_reads (v : nat) (s : state) : state :=
  mkState (emergency_flag s) (task_start_time s) (max_response_time s)
    (task1_count s) (task2_count s) (timer s) (timer_reads s) (button s) v.

Inductive event :=
| EvRunning (task : Z) (n : Z)        (* "Coop Task<task> running: %d" *)
| EvGpio (pin level : Z)              (* gpio_set_level *)
| EvWork (iterations : Z)             (* one work unit: the inner busy loop *)
| EvYielding (task : Z)               (* "Task<task> yielding for emergency" *)
| EvDelayTicks (ticks : Z)            (* vTaskDelay(ticks) *)
| EvDelayMs (ms : Z)                  (* vTaskDelay(pdMS_TO_TICKS(ms)) *)
| EvEmergencyResponse (response_ms max_ms : Z)
| EvButtonPressed                     (* "Emergency button pressed!" *)
| EvInfo (msg : string)
| EvCall (index : Z).                 (* tasks[index].task_function() is called *)

Abbreviation Sim := (M state event).

Definition esp_timer_get_time : Sim Z :=
  fun s => (timer s (timer_reads s), set_timer_reads (S (timer_reads s)) s, []).
Definition gpio_get_level_button : Sim Z :=
  fun s => (button s (button_reads s), set_button_reads (S (button_reads s)) s, []).
Definition gpio_set_level (pin level : Z) : Sim unit := emit (EvGpio pin level).

(** *** Task definitions *)

(** The [for] loop of a cooperative task with [remaining] turns left:
    one work unit, the emergency yield point, the voluntary yield.  The
    result is [true] when the function returned from inside the loop. *)
Fixpoint work_steps (task led work : Z) (remaining : nat) : Sim bool :=
  match remaining with
  | O => ret false
  | S k =>
      emit (EvWork work) ;;
      flag <- gets emergency_flag ;;
      if flag : bool then
        emit (EvYielding task) ;;
        gpio_set_level led 0 ;;
        ret true
      else
        emit (EvDelayTicks 1) ;;
        work_steps task led work k
  end.

Definition TASK1_QUOTA : nat := 5.
Definition TASK2_QUOTA : nat := 10.

Definition cooperative_task1 : Sim unit :=
  n <- gets task1_count ;;
  modify (set_task1_count (u32 (n + 1))) ;;
  emit (EvRunning 1 n) ;;
  gpio_set_level LED1_PIN 1 ;;
  returned <- work_steps 1 LED1_PIN 50000 TASK1_QUOTA ;;
  if returned : bool then ret tt else gpio_set_level LED1_PIN 0.

Definition cooperative_task2 : Sim unit :=
  n <- gets task2_count ;;
  modify (set_task2_count (u32 (n + 1))) ;;
  emit (EvRunning 2 n) ;;
  gpio_set_level LED2_PIN 1 ;;
  returned <- work_steps 2 LED2_PIN 30000 TASK2_QUOTA ;;
  if returned : bool then ret tt else gpio_set_level LED2_PIN 0.

(** The state in which the loop of [cooperative_task1], respectively
    [cooperative_task2], is entered when the task is called in [s]. *)
Definition task1_entry (s : state) : state :=
  set_task1_count (u32 (task1_count s + 1)) s.
Definition task2_entry (s : state) : state :=
  set_task2_count (u32 (task2_count s + 1)) s.

(** The state at the start of work step number [k] (from 0) of a loop
    entered in [entry]; [None] when the task has returned before. *)
Definition at_step_start (task led work : Z) (k : nat) (entry : state)
  : option state :=
  if value (work_steps task led work k) entry
  then None
  else Some (exec (work_steps task led work k) entry).

(** [response_ms] in [cooperative_task3_emergency]. *)
Definition response_ms_of (now raised_at : Z) : Z :=
  u32 (u64 (now - raised_at) / 1000).

Definition cooperative_task3_emergency : Sim unit :=
  flag <- gets emergency_flag ;;
  if flag : bool then
    t <- esp_timer_get_time ;;
    start <- gets task_start_time ;;
    let response_ms := response_ms_of (u64 t) start in
    old <- gets max_response_time ;;
    (if old <? response_ms
     then modify (set_max_response_time response_ms)
     else ret tt) ;;
    new <- gets max_response_time ;;
    emit (EvEmergencyResponse response_ms new) ;;
    gpio_set_level LED3_PIN 1 ;;
    emit (EvDelayMs 200) ;;
    gpio_set_level LED3_PIN 0 ;;
    modify (set_emergency_flag false)
  else ret tt.

(** *** Scheduler *)

Record coop_task_t := mkTask {
  task_function : Sim unit;
  name : string;
  ready : bool
}.

Definition tasks : list coop_task_t :=
  [ mkTask cooperative_task1 "Task1" true;
    mkTask cooperative_task2 "Task2" true;
    mkTask cooperative_task3_emergency "Emergency" true ].

Definition num_tasks : Z := Z.of_nat (List.length tasks).

(** The block under "Check button press (active-low)". *)
Definition check_button : Sim unit :=
  level <- gpio_get_level_button ;;
  flag <- gets emergency_flag ;;
  if (level =? 0) && negb flag then
    modify (set_emergency_flag true) ;;
    t <- esp_timer_get_time ;;
    modify (set_task_start_time (u64 t)) ;;
    emit EvButtonPressed
  else ret tt.

(** The block under "Run current task". *)
Definition run_current (current_task : Z) : Sim unit :=
  match nth_error tasks (Z.to_nat current_task) with
  | Some t =>
      if ready t then emit (EvCall current_task) ;; task_function t else ret tt
  | None => ret tt
  end.

(** One turn of the [while (1)] loop, entered with the given value of
    [current_task]; the result is the value it leaves in [current_task]. *)
Definition scheduler_turn (current_task : Z) : Sim Z :=
  check_button ;;
  run_current current_task ;;
  let next := Z.rem (current_task + 1) num_tasks in
  emit (EvDelayMs 10) ;;
  ret next.

(** [n] turns of the loop, from the given [current_task]. *)
Fixpoint scheduler_turns (n : nat) (current_task : Z) : Sim Z :=
  match n with
  | O => ret current_task
  | S k => next <- scheduler_turn current_task ;; scheduler_turns k next
  end.

(** [cooperative_scheduler], cut after [n] turns of its loop. *)
Definition cooperative_scheduler (n : nat) : Sim Z :=
  scheduler_turns n 0.

(** *** Observations *)

(** The events of turn number [k] (from 0) of a run started in [s]. *)
Definition turn_events (k : nat) (s : state) : list event :=
  events (scheduler_turn (value (cooperative_scheduler k) s))
         (exec (cooperative_scheduler k) s).

Definition is_call (index : Z) (e : event) : bool :=
  match e with
  | EvCall i => i =? index
  | _ => false
  end.

Definition EMERGENCY_INDEX : Z := 2.

(** Whether the emergency handler is executed in a log. *)
Definition handler_called (log : list event) : bool :=
  existsb (is_call EMERGENCY_INDEX) log.

Definition calls (index : Z) (log : list event) : nat :=
  List.length (filter (is_call index) log).

Definition is_work (e : event) : bool :=
  match e with
  | EvWork _ => true
  | _ => false
  end.

(** The work units completed in a log. *)
Definition work_units (log : list event) : nat :=
  List.length (filter is_work log).

(** The indices of the task functions called in a log, in order. *)
Fixpoint call_order (log : list event) : list Z :=
  match log with
  | [] => []
  | EvCall i :: r => i :: call_order r
  | _ :: r => call_order r
  end.

(** The latencies of the emergency responses printed in a log. *)
Fixpoint latencies (log : list event) : list Z :=
  match log with
  | [] => []
  | EvEmergencyResponse ms _ :: r => ms :: latencies r
  | _ :: r => latencies r
  end.

Definition is_response (e : event) : bool :=
  match e with
  | EvEmergencyResponse _ _ => true
  | _ => false
  end.

(** Whether the handler answered an emergency in a log. *)
Definition responded (log : list event) : bool := existsb is_response log.

(** The state in which turn number [k] of a run started in [s] calls its
    task: after the button check of that turn. *)
Definition at_call (k : nat) (s : state) : state :=
  exec check_button (exec (cooperative_scheduler k) s).

(** *** Example states *)

(** The variables as initialised at boot; the button is never pressed
    (level 1), the timer advances by one millisecond per read. *)
Definition idle : state :=
  mkState false 0 0 0 0 (fun k => 1000 * Z.of_nat k) 0 (fun _ => 1) 0.

(** The button is held down from the first turn on; the timer advances
    by 40 milliseconds per read. *)
Definition pressed : state :=
  mkState false 0 0 0 0 (fun k => 40000 * Z.of_nat (S k)) 0 (fun _ => 0) 0.

(** An emergency raised at time 5000 and not yet handled. *)
Definition raised : state :=
  mkState true 5000 12 3 3 (fun k => 90000 + 1000 * Z.of_nat k) 4 (fun _ => 1) 9.

End Cooperative.

(** ** The priority-inversion demonstration (step1.c) *)

Module PriorityDemo.
Local Open Scope sim_scope.

(** The variables of the demonstration as one task sees them.
    [shared_resource_busy] is written by [priority_inversion_low] and read
    by [priority_inversion_high], which runs concurrently: [observed k] is
    the value the [k]-th read of the variable by the high-priority task
    returns, [observations] counts its reads. *)
Record state := mkState {
  priority_test_running : bool;
  shared_resource_busy : bool;
  observed : nat -> bool;
  observations : nat
}.

Definition set_shared_resource_busy (v : bool) (s : state) : state :=
  mkState (priority_test_running s) v (observed s) (observations s).
Definition set_observations (v : nat) (s : state) : state :=
  mkState (priority_test_running s) (shared_resource_busy s) (observed s) v.

Inductive event :=
| EvNeeds                 (* "High priority task needs shared resource" *)
| EvBlocked               (* "High priority BLOCKED by low priority!" *)
| EvGotResource           (* "High priority task got resource" *)
| EvUsing                 (* "Low priority task using shared resource" *)
| EvReleased              (* "Low priority task released resource" *)
| EvDelayMs (ms : Z).     (* vTaskDelay(pdMS_TO_TICKS(ms)) *)

Abbreviation Sim := (M state event).

(** A read of [shared_resource_busy] by the high-priority task. *)
Definition observe_busy : Sim bool :=
  fun s => (observed s (observations s), set_observations (S (observations s)) s, []).

(** [while (shared_resource_busy) { ...; vTaskDelay(10 ms); }], cut after
    [fuel] reads of the variable; the result is [true] when the loop was
    left. *)
Fixpoint wait_for_resource (fuel : nat) : Sim bool :=
  match fuel with
  | O => ret false
  | S f =>
      busy <- observe_busy ;;
      if busy : bool then
        emit EvBlocked ;;
        emit (EvDelayMs 10) ;;
        wait_for_resource f
      else ret true
  end.

(** One turn of the loop of [priority_inversion_high]; [None] when the
    inner loop has not been left within [fuel] reads. *)
Definition priority_inversion_high (fuel : nat) : Sim (option unit) :=
  running <- gets priority_test_running ;;
  if running : bool then
    emit EvNeeds ;;
    left <- wait_for_resource fuel ;;
    if left : bool then
      emit EvGotResource ;;
      emit (EvDelayMs 1000) ;;
      ret (Some tt)
    else ret None
  else
    emit (EvDelayMs 1000) ;;
    ret (Some tt).

(** One turn of the loop of [priority_inversion_low]. *)
Definition priority_inversion_low : Sim unit :=
  running <- gets priority_test_running ;;
  (if running : bool then
     emit EvUsing ;;
     modify (set_shared_resource_busy true) ;;
     emit (EvDelayMs 2000) ;;
     modify (set_shared_resource_busy false) ;;
     emit EvReleased
   else ret tt) ;;
  emit (EvDelayMs 3000).

Definition is_blocked (e : event) : bool :=
  match e with
  | EvBlocked => true
  | _ => false
  end.

(** How often the high-priority task printed that it is blocked. *)
Definition blocked_count (log : list event) : nat :=
  List.length (filter is_blocked log).

Definition got_resource (log : list event) : bool :=
  existsb (fun e => match e with EvGotResource => true | _ => false end) log.

(** The low-priority task holds the resource during the first [r] reads
    of the high-priority task and has released it at the next one. *)
Definition held_for (r : nat) : state :=
  mkState true false (fun k => (k <? r)%nat) 0.

End PriorityDemo.

(** * Properties *)

(** ** Laws of the computations *)

Section SimFacts.
Context {St Ev : Type}.
Implicit Types s : St.

Lemma exec_bind {A B} (m : M St Ev A) (k : A -> M St Ev B) s :
  exec (bind m k) s = exec (k (value m s)) (exec m s).
Proof. reflexivity. Qed.

Lemma value_bind {A B} (m : M St Ev A) (k : A -> M St Ev B) s :
  value (bind m k) s = value (k (value m s)) (exec m s).
Proof. reflexivity. Qed.

Lemma events_bind {A B} (m : M St Ev A) (k : A -> M St Ev B) s :
  events (bind m k) s = events m s ++ events (k (value m s)) (exec m s).
Proof. reflexivity. Qed.

Lemma exec_repeatM_O (body : M St Ev unit) s : exec (repeatM 0 body) s = s.
Proof. reflexivity. Qed.

Lemma events_repeatM_O (body : M St Ev unit) s : events (repeatM 0 body) s = [].
Proof. reflexivity. Qed.

Lemma exec_repeatM_S (n : nat) (body : M St Ev unit) s :
  exec (repeatM (S n) body) s = exec (repeatM n body) (exec body s).
Proof. reflexivity. Qed.

Lemma events_repeatM_S (n : nat) (body : M St Ev unit) s :
  events (repeatM (S n) body) s =
  events body s ++ events (repeatM n body) (exec body s).
Proof. reflexivity. Qed.

Lemma exec_repeatM_add (a b : nat) (body : M St Ev unit) s :
  exec (repeatM (a + b) body) s = exec (repeatM b body) (exec (repeatM a body) s).
Proof.
  revert s; induction a as [|a IH]; intro s; [reflexivity|].
  cbn [Nat.add repeatM]. now rewrite !exec_bind, IH.
Qed.

Lemma events_repeatM_add (a b : nat) (body : M St Ev unit) s :
  events (repeatM (a + b) body) s =
  events (repeatM a body) s ++ events (repeatM b body) (exec (repeatM a body) s).
Proof.
  revert s; induction a as [|a IH]; intro s; [reflexivity|].
  cbn [Nat.add repeatM]. rewrite !events_bind, !exec_bind, IH.
  now rewrite app_assoc.
Qed.
End SimFacts.

(** ** Machine integers *)

Lemma u32_range z : 0 <= u32 z < 2 ^ 32.
Proof. unfold u32. apply Z.mod_pos_bound. reflexivity. Qed.

Lemma u64_range z : 0 <= u64 z < 2 ^ 64.
Proof. unfold u64. apply Z.mod_pos_bound. reflexivity. Qed.

Lemma u32_small z : 0 <= z < 2 ^ 32 -> u32 z = z.
Proof. intro H. unfold u32. now apply Z.mod_small. Qed.

Lemma u64_small z : 0 <= z < 2 ^ 64 -> u64 z = z.
Proof. intro H. unfold u64. now apply Z.mod_small. Qed.

Lemma u32_succ z : u32 (u32 z + 1) = u32 (z + 1).
Proof. unfold u32. now rewrite Zplus_mod_idemp_l. Qed.

Lemma u64_plus_l a b : u64 (u64 a + b) = u64 (a + b).
Proof. unfold u64. now rewrite Zplus_mod_idemp_l. Qed.

Lemma u32_mod4 z : u32 z mod 4 = z mod 4.
Proof.
  unfold u32. apply Z.mod_mod_divide. exists 1073741824. reflexivity.
Qed.

Lemma i64_small z : 0 <= z < 2 ^ 63 -> i64 z = z.
Proof.
  intro H. unfold i64. rewrite Z.mod_small; [lia|].
  change (2 ^ 64) with (2 * 2 ^ 63). lia.
Qed.

(** ** The time-sharing scheduler *)

Module TimeSharingFacts.
Import TimeSharing.
Local Open Scope sim_scope.


Lemma selected_branch_spec (counter : Z) :
  exists t, selected_branch counter = Some t /\ task_index t = counter mod TASK_COUNT.
Proof.
  unfold selected_branch, TASK_COUNT.
  assert (H : 0 <= counter mod 4 < 4) by (apply Z.mod_pos_bound; lia).
  assert (C : counter mod 4 = 0 \/ counter mod 4 = 1 \/
              counter mod 4 = 2 \/ counter mod 4 = 3) by lia.
  destruct C as [E|[E|[E|E]]]; rewrite E; eauto.
Qed.

Lemma selections_app t l1 l2 :
  selections t (l1 ++ l2) = (selections t l1 + selections t l2)%nat.
Proof. unfold selections. now rewrite filter_app, length_app. Qed.

Lemma cycle_selections ts t s :
  selections t (events (dispatch_cycle ts) s) =
  if task_index t =? task_counter s mod TASK_COUNT then 1%nat else 0%nat.
Proof.
  destruct (selected_branch_spec (task_counter s)) as (t' & E & I).
  rewrite <- I. unfold events; cbn. rewrite E.
  destruct t, t'; reflexivity.
Qed.

Lemma cycle_task_counter ts s :
  task_counter (exec (dispatch_cycle ts) s) = u32 (task_counter s + 1).
Proof.
  unfold exec; cbn.
  destruct (selected_branch (task_counter s)) as [[]|]; reflexivity.
Qed.

Lemma cycle_context_switches ts s :
  context_switches (exec (dispatch_cycle ts) s) = u32 (context_switches s + 1).
Proof.
  unfold exec; cbn.
  destruct (selected_branch (task_counter s)) as [[]|]; reflexivity.
Qed.

Lemma four_cycles_selections ts t s :
  selections t (events (dispatch_cycles 4 ts) s) = 1%nat.
Proof.
  unfold dispatch_cycles.
  rewrite !events_repeatM_S, events_repeatM_O, !selections_app.
  rewrite !cycle_selections, !cycle_task_counter, !u32_succ, !u32_mod4.
  unfold TASK_COUNT. change (selections t []) with 0%nat.
  destruct t; cbn [task_index];
    repeat match goal with
           | |- context [?a =? ?b] => destruct (Z.eqb_spec a b)
           end; Z.div_mod_to_equations; lia.
Qed.

Lemma four_cycles_task_counter ts s :
  task_counter (exec (dispatch_cycles 4 ts) s) mod TASK_COUNT =
  task_counter s mod TASK_COUNT.
Proof.
  unfold dispatch_cycles. rewrite !exec_repeatM_S, exec_repeatM_O.
  rewrite !cycle_task_counter. unfold TASK_COUNT. rewrite u32_mod4.
  repeat match goal with
         | |- context [u32 ?x] =>
             let H := fresh in
             pose proof (u32_mod4 x) as H; revert H; generalize (u32 x)
         end.
  intros.
  Z.div_mod_to_equations; lia.
Qed.

Lemma fairness_from_any_counter ts t (m : nat) :
  forall s, selections t (events (dispatch_cycles (4 * m) ts) s) = m.
Proof.
  induction m as [|m IH]; intro s; [reflexivity|].
  replace (4 * S m)%nat with (4 + 4 * m)%nat by lia.
  unfold dispatch_cycles at 1.
  rewrite events_repeatM_add, selections_app.
  fold (dispatch_cycles 4 ts). fold (dispatch_cycles (4 * m) ts).
  rewrite (four_cycles_selections ts t s), IH. reflexivity.
Qed.

(** The state after one dispatch cycle. *)
Lemma dispatch_cycle_state ts s :
  let s' := exec (dispatch_cycle ts) s in
  task_counter s' = u32 (task_counter s + 1) /\
  context_switches s' = u32 (context_switches s + 1) /\
  context_switch_time s' =
    u64 (context_switch_time s +
         u64 (u64 (timer s (S (timer_reads s))) - u64 (timer s (timer_reads s)))) /\
  run_manual_scheduler s' = run_manual_scheduler s /\
  current_time_slice_ms s' = current_time_slice_ms s /\
  round_count s' = round_count s /\
  timer s' = timer s /\
  timer_reads s' = S (S (timer_reads s)).
Proof.
  unfold exec; cbn.
  destruct (selected_branch (task_counter s)) as [[]|]; cbn; repeat split.
Qed.

(** The state after [n] dispatch cycles. *)
Lemma dispatch_cycles_state ts (n : nat) :
  forall s,
    let s' := exec (dispatch_cycles n ts) s in
    u32 (task_counter s') = u32 (task_counter s + Z.of_nat n) /\
    u32 (context_switches s') = u32 (context_switches s + Z.of_nat n) /\
    context_switch_time s' =
      accumulated (timer s) (timer_reads s) n (context_switch_time s) /\
    run_manual_scheduler s' = run_manual_scheduler s /\
    current_time_slice_ms s' = current_time_slice_ms s /\
    round_count s' = round_count s /\
    timer s' = timer s /\
    timer_reads s' = (timer_reads s + 2 * n)%nat.
Proof.
  induction n as [|n IH]; intro s.
  - cbn. rewrite !Z.add_0_r, Nat.add_0_r. repeat split.
  - unfold dispatch_cycles in *. cbv zeta in *. rewrite exec_repeatM_S.
    destruct (dispatch_cycle_state ts s) as (T & C & B & R & L & Rd & Tm & Tr).
    destruct (IH (exec (dispatch_cycle ts) s)) as (T' & C' & B' & R' & L' & Rd' & Tm' & Tr').
    rewrite T', C', B', R', L', Rd', Tm', Tr', T, C, B, R, L, Rd, Tm, Tr.
    cbn [accumulated].
    repeat split; try lia.
    + unfold u32. rewrite Zplus_mod_idemp_l. f_equal. lia.
    + unfold u32. rewrite Zplus_mod_idemp_l. f_equal. lia.
Qed.

Lemma dispatch_cycles_counts ts (n : nat) s :
  0 <= task_counter s < 2 ^ 32 ->
  0 <= context_switches s < 2 ^ 32 ->
  let s' := exec (dispatch_cycles n ts) s in
  task_counter s' = u32 (task_counter s + Z.of_nat n) /\
  context_switches s' = u32 (context_switches s + Z.of_nat n).
Proof.
  intros HT HC. destruct n as [|n].
  - cbn. rewrite !Z.add_0_r, !u32_small by assumption. split; reflexivity.
  - cbv zeta. unfold dispatch_cycles. rewrite <- Nat.add_1_r, exec_repeatM_add.
    rewrite (exec_repeatM_S 0), exec_repeatM_O.
    destruct (dispatch_cycles_state ts n s) as (T & C & _).
    destruct (dispatch_cycle_state ts (exec (dispatch_cycles n ts) s)) as (T' & C' & _).
    unfold dispatch_cycles in *. rewrite T', C'.
    rewrite <- u32_succ, T, u32_succ. rewrite <- (u32_succ (context_switches _)), C, u32_succ.
    split; f_equal; lia.
Qed.

Lemma workloads_run_cycles ts (n : nat) :
  forall s, workloads_run (events (dispatch_cycles n ts) s) = n.
Proof.
  unfold dispatch_cycles, workloads_run.
  induction n as [|n IH]; intro s; [reflexivity|].
  rewrite events_repeatM_S, filter_app, length_app, IH. f_equal.
  unfold events; cbn.
  destruct (selected_branch_spec (task_counter s)) as (t & E & _).
  rewrite E. destruct t; reflexivity.
Qed.

(** C9.  Whatever the value of [task_counter], the selection
    [task_counter % TASK_COUNT] is the index of a registered task, below
    [TASK_COUNT]: the [default] branch of the dispatch switch is never
    taken, and every dispatch runs exactly one workload. *)
Theorem default_branch_unreachable :
  forall s : state,
    (exists t, selected_branch (task_counter s) = Some t /\
               task_index t = task_counter s mod TASK_COUNT /\
               0 <= task_index t < TASK_COUNT) /\
    selected_branch (task_counter s) <> None /\
    workloads_run (events manual_scheduler s) = 1%nat.
Proof.
  intro s. destruct (selected_branch_spec (task_counter s)) as (t & E & I).
  split; [|split].
  - exists t. repeat split; try assumption; destruct t; cbn; unfold TASK_COUNT; lia.
  - rewrite E. discriminate.
  - unfold events; cbn. rewrite E. destruct t; reflexivity.
Qed.

(** C1.  In a run of [N] dispatch cycles started with [task_counter = 0],
    cycle number [k] selects the task of index [k mod TASK_COUNT], and
    when [N] is a multiple of [TASK_COUNT] each task is selected exactly
    [N / TASK_COUNT] times. *)
Theorem round_robin_fairness :
  forall (ts : Z) (s : state) (N : nat) (t : task_id_t),
    task_counter s = 0 ->
    Z.of_nat N mod TASK_COUNT = 0 ->
    (forall k : nat, (k < N)%nat ->
       let sk := exec (dispatch_cycles k ts) s in
       selected_branch (task_counter sk) = selected_branch (Z.of_nat k) /\
       forall t', selections t' (events (dispatch_cycle ts) sk) =
                  if task_index t' =? Z.of_nat k mod TASK_COUNT then 1%nat else 0%nat) /\
    Z.of_nat (selections t (events (dispatch_cycles N ts) s)) = Z.of_nat N / TASK_COUNT.
Proof.
  intros ts s N t H0 HN. split.
  - intros k _ sk.
    assert (E : task_counter sk mod TASK_COUNT = Z.of_nat k mod TASK_COUNT).
    { destruct (dispatch_cycles_state ts k s) as (T & _). fold sk in T.
      rewrite H0 in T. unfold TASK_COUNT.
      rewrite <- (u32_mod4 (task_counter sk)), T, u32_mod4. reflexivity. }
    split.
    + unfold selected_branch. now rewrite E.
    + intro t'. now rewrite cycle_selections, E.
  - unfold TASK_COUNT in *.
    assert (Q : 0 <= Z.of_nat N / 4) by (apply Z.div_pos; lia).
    assert (EN : N = (4 * Z.to_nat (Z.of_nat N / 4))%nat).
    { Z.div_mod_to_equations. lia. }
    revert Q. generalize (Z.of_nat N / 4) EN. intros q -> Q.
    rewrite fairness_from_any_counter. lia.
Qed.

Lemma round_robin_fairness_witness :
  task_counter boot = 0 /\ Z.of_nat 8 mod TASK_COUNT = 0 /\
  Z.of_nat (selections TASK_ACTUATOR (events (dispatch_cycles 8 50) boot)) =
  Z.of_nat 8 / TASK_COUNT.
Proof.
  split; [reflexivity|]. split; [reflexivity|].
  exact (proj2 (round_robin_fairness 50 boot 8 TASK_ACTUATOR eq_refl eq_refl)).
Defined.
End TimeSharingFacts.

Module TimeSharingExperiment.
Import TimeSharing TimeSharingFacts.
Local Open Scope sim_scope.

Lemma trial_counts_app l1 l2 :
  trial_counts (l1 ++ l2) = trial_counts l1 ++ trial_counts l2.
Proof.
  induction l1 as [|e l1 IH]; [reflexivity|].
  destruct e; cbn; now rewrite ?IH.
Qed.

Lemma dispatch_cycle_no_report ts s :
  trial_counts (events (dispatch_cycle ts) s) = [].
Proof.
  unfold events; cbn.
  destruct (selected_branch (task_counter s)) as [[]|]; reflexivity.
Qed.

Lemma dispatch_cycles_no_report ts (n : nat) :
  forall s, trial_counts (events (dispatch_cycles n ts) s) = [].
Proof.
  unfold dispatch_cycles.
  induction n as [|n IH]; intro s; [reflexivity|].
  now rewrite events_repeatM_S, trial_counts_app, dispatch_cycle_no_report, IH.
Qed.

Lemma trial_start_state s :
  let s0 := trial_start s in
  context_switches s0 = 0 /\ context_switch_time s0 = 0 /\ task_counter s0 = 0 /\
  run_manual_scheduler s0 = run_manual_scheduler s /\
  current_time_slice_ms s0 = current_time_slice_ms s /\
  timer s0 = timer s /\ timer_reads s0 = S (timer_reads s).
Proof. cbn. repeat split. Qed.

Lemma timed_trial_events ts (cycles : Sim unit) s :
  let s1 := exec cycles (trial_start s) in
  let test_duration :=
    u64 (u64 (timer s1 (timer_reads s1)) - u64 (timer s (timer_reads s))) in
  events (timed_trial ts cycles) s =
  EvTesting ts :: events cycles (trial_start s) ++
  [ EvTrialReport ts
      (efficiency_of (context_switch_time s1) test_duration)
      (context_switches s1) (i64 test_duration) (i64 (context_switch_time s1))
      (avg_per_invocation_of (context_switch_time s1) (context_switches s1));
    EvDelayMs 1000 ].
Proof. reflexivity. Qed.

Lemma timed_trial_exec ts (cycles : Sim unit) s :
  let s1 := exec cycles (trial_start s) in
  exec (timed_trial ts cycles) s = set_timer_reads (S (timer_reads s1)) s1.
Proof. reflexivity. Qed.

Lemma slice_trial_events ts s :
  let s1 := exec (dispatch_cycles iterations ts) (trial_start s) in
  let test_duration :=
    u64 (u64 (timer s1 (timer_reads s1)) - u64 (timer s (timer_reads s))) in
  events (slice_trial ts) s =
  EvTesting ts :: events (dispatch_cycles iterations ts) (trial_start s) ++
  [ EvTrialReport ts
      (efficiency_of (context_switch_time s1) test_duration)
      (context_switches s1) (i64 test_duration) (i64 (context_switch_time s1))
      (avg_per_invocation_of (context_switch_time s1) (context_switches s1));
    EvDelayMs 1000 ].
Proof. exact (timed_trial_events ts (dispatch_cycles iterations ts) s). Qed.

Lemma slice_trial_exec ts s :
  let s1 := exec (dispatch_cycles iterations ts) (trial_start s) in
  exec (slice_trial ts) s = set_timer_reads (S (timer_reads s1)) s1.
Proof. exact (timed_trial_exec ts (dispatch_cycles iterations ts) s). Qed.

(** The state a trial leaves behind. *)
Lemma slice_trial_state ts s :
  let s' := exec (slice_trial ts) s in
  context_switches s' = 50 /\ task_counter s' = 50 /\
  context_switch_time s' =
    accumulated (timer s) (S (timer_reads s)) iterations 0 /\
  run_manual_scheduler s' = run_manual_scheduler s /\
  current_time_slice_ms s' = current_time_slice_ms s /\
  timer s' = timer s /\
  timer_reads s' = (timer_reads s + 102)%nat.
Proof.
  cbv zeta. rewrite slice_trial_exec. cbv zeta.
  destruct (trial_start_state s) as (C0 & B0 & T0 & R0 & L0 & Tm0 & Tr0).
  destruct (dispatch_cycles_state ts iterations (trial_start s))
    as (_ & _ & B & R & L & _ & Tm & Tr).
  destruct (dispatch_cycles_counts ts iterations (trial_start s)) as (T & C).
  { rewrite T0. split; [lia | reflexivity]. }
  { rewrite C0. split; [lia | reflexivity]. }
  cbv zeta in *.
  set (s1 := exec (dispatch_cycles iterations ts) (trial_start s)) in *.
  cbn [set_timer_reads context_switches task_counter context_switch_time
       run_manual_scheduler current_time_slice_ms timer timer_reads].
  rewrite C, T, B, R, L, Tm, Tr, C0, T0, B0, R0, L0, Tm0, Tr0.
  repeat split. unfold iterations. lia.
Qed.

Lemma timed_trial_counts ts (cycles : Sim unit) s :
  trial_counts (events cycles (trial_start s)) = [] ->
  trial_counts (events (timed_trial ts cycles) s) =
  [(ts, context_switches (exec cycles (trial_start s)))].
Proof.
  intro H. rewrite timed_trial_events. cbv zeta.
  cbn [trial_counts]. rewrite trial_counts_app, H. reflexivity.
Qed.

Lemma trial_cycles_switches ts s :
  context_switches (exec (dispatch_cycles iterations ts) (trial_start s)) = 50.
Proof.
  destruct (trial_start_state s) as (C0 & _ & T0 & _).
  destruct (dispatch_cycles_counts ts iterations (trial_start s)) as (_ & C).
  { rewrite T0. split; [lia | reflexivity]. }
  { rewrite C0. split; [lia | reflexivity]. }
  cbv zeta in C. rewrite C, C0. reflexivity.
Qed.

Lemma slice_trial_counts ts s :
  trial_counts (events (slice_trial ts) s) = [(ts, 50)].
Proof.
  unfold slice_trial.
  rewrite timed_trial_counts by apply dispatch_cycles_no_report.
  now rewrite trial_cycles_switches.
Qed.

Lemma trials_counts (slices : list Z) :
  forall s, trial_counts (events (forM slices slice_trial) s) =
            map (fun ts => (ts, 50)) slices.
Proof.
  induction slices as [|ts r IH]; intro s; [reflexivity|].
  cbn [forM map]. rewrite events_bind, trial_counts_app, slice_trial_counts, IH.
  reflexivity.
Qed.

(** The state after the trials of a non-empty table: the counters are
    those of the last trial. *)
Lemma trials_state (slices : list Z) :
  forall s,
    slices <> [] ->
    let s' := exec (forM slices slice_trial) s in
    context_switches s' = 50 /\ task_counter s' = 50 /\
    context_switch_time s' =
      accumulated (timer s)
        (S (timer_reads s + 102 * (List.length slices - 1))) iterations 0 /\
    run_manual_scheduler s' = run_manual_scheduler s /\
    current_time_slice_ms s' = current_time_slice_ms s /\
    timer s' = timer s /\
    timer_reads s' = (timer_reads s + 102 * List.length slices)%nat.
Proof.
  induction slices as [|ts r IH]; intros s Hne; [congruence|].
  cbv zeta. cbn [forM]. rewrite exec_bind.
  destruct (slice_trial_state ts s) as (C & T & B & R & L & Tm & Tr).
  destruct r as [|ts' r'].
  - change (exec (forM [] slice_trial) (exec (slice_trial ts) s))
      with (exec (slice_trial ts) s).
    rewrite C, T, B, R, L, Tm, Tr. cbn [List.length].
    replace (timer_reads s + 102 * (1 - 1))%nat with (timer_reads s) by lia.
    repeat split; lia.
  - destruct (IH (exec (slice_trial ts) s)) as (C' & T' & B' & R' & L' & Tm' & Tr');
      [discriminate|].
    cbv zeta in *. rewrite C', T', B', R', L', Tm', Tr', R, L, Tm, Tr.
    cbn [List.length].
    repeat split; try lia. f_equal. lia.
Qed.

Lemma experiment_over_events slices s :
  events (experiment_over slices) s =
  EvInfo "=== Variable Time Slice Experiment ===" ::
  events (forM slices slice_trial) (set_run_manual_scheduler false s) ++
  [EvInfo "Variable time slice experiment completed."].
Proof. reflexivity. Qed.

Lemma experiment_over_exec slices s :
  exec (experiment_over slices) s =
  set_run_manual_scheduler true
    (set_current_time_slice_ms TIME_SLICE_MS
       (exec (forM slices slice_trial) (set_run_manual_scheduler false s))).
Proof. reflexivity. Qed.

Lemma experiment_over_counts slices s :
  trial_counts (events (experiment_over slices) s) =
  map (fun ts => (ts, 50)) slices.
Proof.
  rewrite experiment_over_events. cbn [trial_counts].
  rewrite trial_counts_app, trials_counts. cbn [trial_counts].
  apply app_nil_r.
Qed.

Lemma timed_trial_workloads ts (cycles : Sim unit) s :
  workloads_run (events (timed_trial ts cycles) s) =
  workloads_run (events cycles (trial_start s)).
Proof.
  rewrite timed_trial_events. cbv zeta. unfold workloads_run.
  cbn [filter starts_workload]. rewrite filter_app, length_app.
  cbn [filter starts_workload List.length]. apply Nat.add_0_r.
Qed.

Lemma timed_trial_shape ts (cycles : Sim unit) s :
  exists report,
    events (timed_trial ts cycles) s =
    EvTesting ts :: events cycles (trial_start s) ++ [report; EvDelayMs 1000].
Proof. eexists. rewrite timed_trial_events. reflexivity. Qed.

(** C5.  The experiment walks the table 10, 25, 50, 100, 200; each trial
    starts its dispatch cycles with the three counters at 0 and makes
    exactly 50 of them; so the context-switch counts it reports are 50
    for each slice value, whatever the timer returns and whatever the
    state it is started from: two runs report the same counts. *)
Theorem experiment_counts_deterministic :
  time_slices = [10; 25; 50; 100; 200] /\
  iterations = 50%nat /\
  (forall ts s,
     let s0 := trial_start s in
     context_switches s0 = 0 /\ context_switch_time s0 = 0 /\ task_counter s0 = 0 /\
     (exists report,
        events (slice_trial ts) s =
        EvTesting ts :: events (dispatch_cycles iterations ts) s0 ++
        [report; EvDelayMs 1000]) /\
     workloads_run (events (slice_trial ts) s) = iterations) /\
  (forall s1 s2,
     trial_counts (events variable_time_slice_experiment s1) =
     trial_counts (events variable_time_slice_experiment s2)) /\
  (forall s,
     trial_counts (events variable_time_slice_experiment s) =
     [(10, 50); (25, 50); (50, 50); (100, 50); (200, 50)]).
Proof.
  assert (K : forall s, trial_counts (events variable_time_slice_experiment s) =
                        [(10, 50); (25, 50); (50, 50); (100, 50); (200, 50)]).
  { intro s. unfold variable_time_slice_experiment.
    rewrite experiment_over_counts. reflexivity. }
  split; [reflexivity|]. split; [reflexivity|]. split; [|split].
  - intros ts s s0.
    destruct (trial_start_state s) as (C0 & B0 & T0 & _).
    split; [exact C0|]. split; [exact B0|]. split; [exact T0|]. split.
    + exact (timed_trial_shape ts (dispatch_cycles iterations ts) s).
    + unfold slice_trial. rewrite timed_trial_workloads.
      exact (workloads_run_cycles ts iterations (trial_start s)).
  - intros s1 s2. now rewrite !K.
  - exact K.
Qed.
End TimeSharingExperiment.

Module TimeSharingStatistics.
Import TimeSharing TimeSharingFacts TimeSharingExperiment.
Local Open Scope sim_scope.

(** The end of the experiment only touches the two control variables. *)
Lemma experiment_over_state slices s :
  let s1 := exec (forM slices slice_trial) (set_run_manual_scheduler false s) in
  let s' := exec (experiment_over slices) s in
  run_manual_scheduler s' = true /\
  current_time_slice_ms s' = TIME_SLICE_MS /\
  context_switches s' = context_switches s1 /\
  task_counter s' = task_counter s1 /\
  context_switch_time s' = context_switch_time s1 /\
  timer_reads s' = timer_reads s1.
Proof. repeat split. Qed.

Lemma trial_efficiencies_app l1 l2 :
  trial_efficiencies (l1 ++ l2) = trial_efficiencies l1 ++ trial_efficiencies l2.
Proof.
  induction l1 as [|e l1 IH]; [reflexivity|].
  destruct e; cbn; now rewrite ?IH.
Qed.

Lemma dispatch_cycles_no_efficiency ts (n : nat) :
  forall s, trial_efficiencies (events (dispatch_cycles n ts) s) = [].
Proof.
  unfold dispatch_cycles.
  induction n as [|n IH]; intro s; [reflexivity|].
  rewrite events_repeatM_S, trial_efficiencies_app, IH, app_nil_r.
  unfold events; cbn.
  destruct (selected_branch (task_counter s)) as [[]|]; reflexivity.
Qed.

(** Under a timer that stands at 0 the duration of a trial is 0. *)
Lemma timed_trial_efficiency_frozen ts (cycles : Sim unit) s :
  (forall s0, trial_efficiencies (events cycles s0) = []) ->
  (forall s0, timer (exec cycles s0) = timer s0) ->
  trial_efficiencies (events (timed_trial ts cycles) (with_timer (fun _ => 0) s)) =
  [Binary32.zero].
Proof.
  intros H T. rewrite timed_trial_events. cbv zeta.
  cbn [trial_efficiencies]. rewrite trial_efficiencies_app, H, T.
  reflexivity.
Qed.

(** C10.  When the experiment returns, the background scheduler is
    enabled again and the time slice is the default 50 ms, whatever the
    table of slice values; the three counters are not restored: they
    hold what the last trial left, 50 context switches, [task_counter]
    50, and the busy time accumulated by the 50 dispatches of that
    trial. *)
Theorem experiment_post_state :
  (forall slices s,
     let s' := exec (experiment_over slices) s in
     run_manual_scheduler s' = true /\ current_time_slice_ms s' = 50) /\
  (forall s,
     let s' := exec variable_time_slice_experiment s in
     run_manual_scheduler s' = true /\
     current_time_slice_ms s' = 50 /\
     context_switches s' = 50 /\
     task_counter s' = 50 /\
     context_switch_time s' =
       accumulated (timer s) (timer_reads s + 409) iterations 0 /\
     timer_reads s' = (timer_reads s + 510)%nat).
Proof.
  split.
  - intros slices s.
    destruct (experiment_over_state slices s) as (R & L & _). split; assumption.
  - intro s. unfold variable_time_slice_experiment.
    destruct (experiment_over_state time_slices s) as (R & L & C & T & B & Tr).
    destruct (trials_state time_slices (set_run_manual_scheduler false s))
      as (C' & T' & B' & _ & _ & _ & Tr'); [discriminate|].
    cbv zeta in *.
    rewrite C, T, B, Tr, C', T', B', Tr'.
    repeat split; try assumption.
    f_equal. cbn. lia.
Qed.

Lemma report_due_spec cs :
  report_due cs = true <-> 0 < cs /\ cs mod 20 = 0.
Proof.
  unfold report_due. rewrite andb_true_iff, Z.ltb_lt, Z.eqb_eq. reflexivity.
Qed.

(** What the reporting block of [manual_task] prints. *)
Lemma report_statistics_events s :
  events report_statistics s =
  if report_due (context_switches s) then
    let total_time := u64 (timer s (timer_reads s)) in
    let busy := context_switch_time s in
    let cpu_utilization := cpu_utilization_of busy total_time in
    [ EvRoundStats (u32 (round_count s + 1)) (context_switches s)
        (i64 total_time) (i64 busy) cpu_utilization
        (overhead_percentage_of cpu_utilization)
        (avg_per_task_us_of busy (context_switches s)) ]
  else [].
Proof.
  unfold report_statistics, events; cbn.
  destruct (report_due (context_switches s)); reflexivity.
Qed.

Lemma manual_task_iteration_events s :
  events manual_task_iteration s =
  if run_manual_scheduler s then
    events (dispatch_cycle (current_time_slice_ms s)) s ++
    events report_statistics (exec (dispatch_cycle (current_time_slice_ms s)) s)
  else [EvDelayMs 100].
Proof.
  transitivity
    (if run_manual_scheduler s then
       events manual_scheduler s ++
       [EvDelayMs (current_time_slice_ms (exec manual_scheduler s))] ++
       events report_statistics (exec manual_scheduler s)
     else [EvDelayMs 100]).
  { unfold manual_task_iteration, events, exec. cbn [bind gets fst snd app].
    destruct (run_manual_scheduler s); reflexivity. }
  destruct (run_manual_scheduler s); [|reflexivity].
  destruct (dispatch_cycle_state (current_time_slice_ms s) s) as (_ & _ & _ & _ & L & _).
  change (exec (dispatch_cycle (current_time_slice_ms s)) s)
    with (exec manual_scheduler s) in *.
  rewrite L, app_assoc. reflexivity.
Qed.

Lemma round_stats_cycle ts s : round_stats (events (dispatch_cycle ts) s) = [].
Proof.
  unfold events; cbn.
  destruct (selected_branch (task_counter s)) as [[]|]; reflexivity.
Qed.

(** C4.  Each derived metric is 0 when its denominator is 0: the
    utilisation and the efficiency for a duration of 0, the two averages
    for 0 context switches; and a trial or a report made while the timer
    stands at 0 prints 0 for the efficiency and the utilisation. *)
Theorem zero_guard :
  (forall busy, cpu_utilization_of busy 0 = Binary32.zero) /\
  (forall busy, efficiency_of busy 0 = Binary32.zero) /\
  (forall busy, avg_per_task_us_of busy 0 = 0) /\
  (forall busy, avg_per_invocation_of busy 0 = 0) /\
  (forall ts s,
     trial_efficiencies (events (slice_trial ts) (with_timer (fun _ => 0) s)) =
     [Binary32.zero]) /\
  (forall s e,
     In e (events report_statistics (with_timer (fun _ => 0) s)) ->
     exists round cs busy avg,
       e = EvRoundStats round cs 0 busy Binary32.zero Binary32.hundred avg).
Proof.
  split; [reflexivity|]. split; [reflexivity|]. split; [reflexivity|].
  split; [reflexivity|]. split.
  - intros ts s. unfold slice_trial.
    apply timed_trial_efficiency_frozen.
    + apply dispatch_cycles_no_efficiency.
    + intro s0. apply (dispatch_cycles_state ts iterations s0).
  - intros s e. rewrite report_statistics_events.
    destruct (report_due _); [|intros []].
    cbv zeta. intros [<-|[]]. cbn. eauto 10.
Qed.
End TimeSharingStatistics.

(** ** The cooperative scheduler *)

Module CooperativeFacts.
Import Cooperative.
Local Open Scope sim_scope.

(** The loop of a task only prints: it leaves the variables alone. *)
Lemma work_steps_exec task led work (n : nat) s :
  exec (work_steps task led work n) s = s.
Proof.
  induction n as [|n IH]; [reflexivity|].
  unfold exec in *. cbn [work_steps bind gets emit fst snd].
  destruct (emergency_flag s); [reflexivity|].
  cbn [bind emit fst snd]. exact IH.
Qed.

(** With the flag raised the loop returns after its first work unit. *)
Lemma work_steps_raised task led work (n : nat) s :
  emergency_flag s = true ->
  value (work_steps task led work (S n)) s = true /\
  events (work_steps task led work (S n)) s =
  [EvWork work; EvYielding task; EvGpio led 0].
Proof.
  intro H. unfold value, events. cbn [work_steps bind gets emit fst snd app].
  rewrite H. split; reflexivity.
Qed.

(** With the flag down the loop runs all its turns. *)
Lemma work_steps_calm task led work (n : nat) s :
  emergency_flag s = false ->
  value (work_steps task led work n) s = false /\
  work_units (events (work_steps task led work n) s) = n.
Proof.
  intro H. induction n as [|n [IHv IHe]]; [split; reflexivity|].
  unfold value, events, work_units in *.
  cbn [work_steps bind gets emit fst snd app]. rewrite H.
  cbn [bind gets emit fst snd app filter is_work List.length].
  rewrite IHv, IHe. split; reflexivity.
Qed.

(** A step reached with the flag raised is the first one, and the flag
    was raised when the loop was entered. *)
Lemma at_step_start_raised task led work (k : nat) entry sk :
  at_step_start task led work k entry = Some sk ->
  emergency_flag sk = true ->
  k = 0%nat /\ sk = entry.
Proof.
  unfold at_step_start. rewrite work_steps_exec.
  destruct (value _ entry) eqn:V; [discriminate|].
  intros [= <-] F. split; [|reflexivity].
  destruct k as [|k]; [reflexivity|].
  destruct (work_steps_raised task led work k entry F) as (V' & _). congruence.
Qed.

Lemma cooperative_task1_raised s :
  emergency_flag s = true ->
  events cooperative_task1 s =
  [ EvRunning 1 (task1_count s); EvGpio LED1_PIN 1; EvWork 50000;
    EvYielding 1; EvGpio LED1_PIN 0 ].
Proof.
  intro H. unfold cooperative_task1, events, TASK1_QUOTA.
  cbn [work_steps bind gets modify emit gpio_set_level fst snd app
       set_task1_count emergency_flag].
  rewrite H. reflexivity.
Qed.

Lemma cooperative_task2_raised s :
  emergency_flag s = true ->
  events cooperative_task2 s =
  [ EvRunning 2 (task2_count s); EvGpio LED2_PIN 1; EvWork 30000;
    EvYielding 2; EvGpio LED2_PIN 0 ].
Proof.
  intro H. unfold cooperative_task2, events, TASK2_QUOTA.
  cbn [work_steps bind gets modify emit gpio_set_level fst snd app
       set_task2_count emergency_flag].
  rewrite H. reflexivity.
Qed.

Lemma scheduler_turn_events c s :
  events (scheduler_turn c) s =
  events check_button s ++ events (run_current c) (exec check_button s) ++
  [EvDelayMs 10].
Proof. reflexivity. Qed.

Lemma scheduler_turn_exec c s :
  exec (scheduler_turn c) s = exec (run_current c) (exec check_button s).
Proof. reflexivity. Qed.

Lemma scheduler_turn_value c s :
  value (scheduler_turn c) s = Z.rem (c + 1) num_tasks.
Proof. reflexivity. Qed.

Lemma scheduler_turns_O_events c s : events (scheduler_turns 0 c) s = [].
Proof. reflexivity. Qed.

Lemma scheduler_turns_S_events (n : nat) c s :
  events (scheduler_turns (S n) c) s =
  events (scheduler_turn c) s ++
  events (scheduler_turns n (value (scheduler_turn c) s)) (exec (scheduler_turn c) s).
Proof. reflexivity. Qed.

Lemma scheduler_turns_S_exec (n : nat) c s :
  exec (scheduler_turns (S n) c) s =
  exec (scheduler_turns n (value (scheduler_turn c) s)) (exec (scheduler_turn c) s).
Proof. reflexivity. Qed.

Lemma scheduler_turns_S_value (n : nat) c s :
  value (scheduler_turns (S n) c) s =
  value (scheduler_turns n (value (scheduler_turn c) s)) (exec (scheduler_turn c) s).
Proof. reflexivity. Qed.

(** With the flag raised the button check only reads the pin. *)
Lemma check_button_raised s :
  emergency_flag s = true ->
  events check_button s = [] /\
  exec check_button s = set_button_reads (S (button_reads s)) s.
Proof.
  intro H. unfold check_button, events, exec.
  cbn [bind gets gpio_get_level_button fst snd set_button_reads emergency_flag].
  rewrite H, andb_false_r. split; reflexivity.
Qed.

(** A turn of the scheduler entered with the flag raised, on task 1. *)
Lemma scheduler_turn_task1_raised s :
  emergency_flag s = true ->
  events (scheduler_turn 0) s =
  [ EvCall 0; EvRunning 1 (task1_count s); EvGpio LED1_PIN 1; EvWork 50000;
    EvYielding 1; EvGpio LED1_PIN 0; EvDelayMs 10 ] /\
  value (scheduler_turn 0) s = 1.
Proof.
  intro H. split; [|reflexivity].
  destruct (check_button_raised s H) as (E & X).
  rewrite scheduler_turn_events, E, X.
  change (events (run_current 0) ?x) with (EvCall 0 :: events cooperative_task1 x).
  rewrite cooperative_task1_raised by exact H. reflexivity.
Qed.

(** C2.  When the emergency flag is raised at the start of a work step of
    a cooperative task, the task completes fewer work units than its
    quota (5 for task 1, 10 for task 2): it finishes the unit, prints
    that it yields, switches its LED off and returns; the scheduler then
    makes its delay, and only after that calls the next task. *)
Theorem cooperative_early_exit :
  forall (s : state) (k : nat) (sk : state),
    emergency_flag sk = true ->
    ((k < TASK1_QUOTA)%nat ->
     at_step_start 1 LED1_PIN 50000 k (task1_entry s) = Some sk ->
     (work_units (events cooperative_task1 s) < TASK1_QUOTA)%nat /\
     (exists before,
        events cooperative_task1 s = before ++ [EvYielding 1; EvGpio LED1_PIN 0]) /\
     exists before,
       events (scheduler_turns 2 0) s =
       before ++ [EvYielding 1; EvGpio LED1_PIN 0; EvDelayMs 10] ++
       events (scheduler_turn 1) (exec (scheduler_turn 0) s)) /\
    ((k < TASK2_QUOTA)%nat ->
     at_step_start 2 LED2_PIN 30000 k (task2_entry s) = Some sk ->
     (work_units (events cooperative_task2 s) < TASK2_QUOTA)%nat /\
     exists before,
       events cooperative_task2 s = before ++ [EvYielding 2; EvGpio LED2_PIN 0]).
Proof.
  intros s k sk F. split; intros Hk Hs.
  - destruct (at_step_start_raised _ _ _ _ _ _ Hs F) as (_ & ->).
    assert (Fs : emergency_flag s = true) by exact F.
    rewrite (cooperative_task1_raised s Fs). split; [|split].
    + cbn. unfold TASK1_QUOTA. lia.
    + exists [EvRunning 1 (task1_count s); EvGpio LED1_PIN 1; EvWork 50000].
      reflexivity.
    + exists [EvCall 0; EvRunning 1 (task1_count s); EvGpio LED1_PIN 1; EvWork 50000].
      destruct (scheduler_turn_task1_raised s Fs) as (E & V).
      rewrite scheduler_turns_S_events, E, V.
      rewrite scheduler_turns_S_events, scheduler_turns_O_events, app_nil_r.
      reflexivity.
  - destruct (at_step_start_raised _ _ _ _ _ _ Hs F) as (_ & ->).
    assert (Fs : emergency_flag s = true) by exact F.
    rewrite (cooperative_task2_raised s Fs). split.
    + cbn. unfold TASK2_QUOTA. lia.
    + exists [EvRunning 2 (task2_count s); EvGpio LED2_PIN 1; EvWork 30000].
      reflexivity.
Qed.

Lemma cooperative_early_exit_witness :
  emergency_flag (task1_entry raised) = true /\
  (work_units (events cooperative_task1 raised) < TASK1_QUOTA)%nat /\
  (work_units (events cooperative_task2 raised) < TASK2_QUOTA)%nat.
Proof.
  split; [reflexivity|].
  split.
  - apply (proj1 (cooperative_early_exit raised 0 (task1_entry raised) eq_refl));
      [unfold TASK1_QUOTA; lia | reflexivity].
  - apply (proj2 (cooperative_early_exit raised 0 (task2_entry raised) eq_refl));
      [unfold TASK2_QUOTA; lia | reflexivity].
Defined.
End CooperativeFacts.

Module CooperativeRuns.
Import Cooperative CooperativeFacts.
Local Open Scope sim_scope.

Lemma call_order_app l1 l2 : call_order (l1 ++ l2) = call_order l1 ++ call_order l2.
Proof.
  induction l1 as [|e l1 IH]; [reflexivity|].
  destruct e; cbn; now rewrite ?IH.
Qed.

Lemma handler_called_call_order log :
  handler_called log = existsb (fun i => i =? EMERGENCY_INDEX) (call_order log).
Proof.
  unfold handler_called.
  induction log as [|e log IH]; [reflexivity|].
  destruct e; cbn; now rewrite IH.
Qed.

Lemma calls_call_order index log :
  calls index log = List.length (filter (fun i => i =? index) (call_order log)).
Proof.
  unfold calls.
  induction log as [|e log IH]; [reflexivity|].
  destruct e; cbn; rewrite ?IH; try reflexivity.
  destruct (index0 =? index); cbn; now rewrite ?IH.
Qed.

Lemma work_steps_no_call task led work (n : nat) s :
  call_order (events (work_steps task led work n) s) = [].
Proof.
  induction n as [|n IH]; [reflexivity|].
  unfold events in *. cbn [work_steps bind gets emit fst snd app].
  destruct (emergency_flag s); [reflexivity|].
  cbn [bind emit fst snd app call_order]. exact IH.
Qed.

Lemma cooperative_task1_exec s :
  exec cooperative_task1 s = task1_entry s.
Proof.
  unfold cooperative_task1. rewrite !exec_bind.
  rewrite work_steps_exec. destruct (value (work_steps _ _ _ _) _); reflexivity.
Qed.

Lemma cooperative_task2_exec s :
  exec cooperative_task2 s = task2_entry s.
Proof.
  unfold cooperative_task2. rewrite !exec_bind.
  rewrite work_steps_exec. destruct (value (work_steps _ _ _ _) _); reflexivity.
Qed.

Lemma cooperative_task1_no_call s : call_order (events cooperative_task1 s) = [].
Proof.
  unfold cooperative_task1. rewrite !events_bind, !call_order_app.
  rewrite work_steps_no_call. destruct (value (work_steps _ _ _ _) _); reflexivity.
Qed.

Lemma cooperative_task2_no_call s : call_order (events cooperative_task2 s) = [].
Proof.
  unfold cooperative_task2. rewrite !events_bind, !call_order_app.
  rewrite work_steps_no_call. destruct (value (work_steps _ _ _ _) _); reflexivity.
Qed.

Lemma handler_no_call s : call_order (events cooperative_task3_emergency s) = [].
Proof.
  unfold cooperative_task3_emergency, events.
  cbn [bind gets fst snd app]. destruct (emergency_flag s); [|reflexivity].
  cbn. destruct (_ <? _); reflexivity.
Qed.

Lemma check_button_no_call s : call_order (events check_button s) = [].
Proof.
  unfold check_button, events. cbn [bind gets gpio_get_level_button fst snd app].
  destruct (_ && _); reflexivity.
Qed.

Lemma run_current_calls c s :
  0 <= c < num_tasks -> call_order (events (run_current c) s) = [c].
Proof.
  unfold num_tasks; cbn. intro H.
  assert (C : c = 0 \/ c = 1 \/ c = 2) by lia.
  destruct C as [ -> | [ -> | -> ] ].
  - change (events (run_current 0) s) with (EvCall 0 :: events cooperative_task1 s).
    cbn [call_order]. now rewrite cooperative_task1_no_call.
  - change (events (run_current 1) s) with (EvCall 1 :: events cooperative_task2 s).
    cbn [call_order]. now rewrite cooperative_task2_no_call.
  - change (events (run_current 2) s)
      with (EvCall 2 :: events cooperative_task3_emergency s).
    cbn [call_order]. now rewrite handler_no_call.
Qed.

Lemma scheduler_turn_calls c s :
  0 <= c < num_tasks -> call_order (events (scheduler_turn c) s) = [c].
Proof.
  intro H. rewrite scheduler_turn_events, !call_order_app.
  rewrite check_button_no_call, run_current_calls by exact H. reflexivity.
Qed.

Lemma next_task c :
  0 <= c < num_tasks ->
  Z.rem (c + 1) num_tasks = (c + 1) mod num_tasks /\
  0 <= Z.rem (c + 1) num_tasks < num_tasks.
Proof.
  unfold num_tasks; cbn. intro H.
  rewrite Z.rem_mod_nonneg by lia. split; [reflexivity|].
  apply Z.mod_pos_bound. lia.
Qed.

(** The value of [current_task] after [k] turns. *)
Lemma scheduler_turns_value (k : nat) :
  forall c s,
    0 <= c < num_tasks ->
    value (scheduler_turns k c) s = (c + Z.of_nat k) mod num_tasks.
Proof.
  induction k as [|k IH]; intros c s H.
  - cbn [scheduler_turns]. change (value (ret c) s) with c.
    rewrite Z.add_0_r, Z.mod_small; [reflexivity | exact H].
  - rewrite scheduler_turns_S_value, scheduler_turn_value.
    destruct (next_task c H) as (E & B).
    rewrite IH by exact B. rewrite E.
    rewrite Zplus_mod_idemp_l. f_equal. lia.
Qed.

(** A run of [a + b] turns is a run of [a] turns followed by [b] more. *)
Lemma scheduler_turns_add (a b : nat) :
  forall c s,
    exec (scheduler_turns (a + b) c) s =
    exec (scheduler_turns b (value (scheduler_turns a c) s))
         (exec (scheduler_turns a c) s) /\
    events (scheduler_turns (a + b) c) s =
    events (scheduler_turns a c) s ++
    events (scheduler_turns b (value (scheduler_turns a c) s))
           (exec (scheduler_turns a c) s).
Proof.
  induction a as [|a IH]; intros c s; [split; reflexivity|].
  cbn [Nat.add].
  rewrite !scheduler_turns_S_exec, !scheduler_turns_S_events, !scheduler_turns_S_value.
  destruct (IH (value (scheduler_turn c) s) (exec (scheduler_turn c) s)) as (E1 & E2).
  rewrite E1, E2, app_assoc. split; reflexivity.
Qed.

Lemma turn_events_calls (k : nat) s :
  call_order (turn_events k s) = [Z.of_nat k mod num_tasks].
Proof.
  unfold turn_events, cooperative_scheduler.
  rewrite scheduler_turns_value by (unfold num_tasks; cbn; lia).
  rewrite scheduler_turn_calls; [reflexivity|].
  apply Z.mod_pos_bound. unfold num_tasks; cbn; lia.
Qed.

Lemma run_call_order (n : nat) s :
  call_order (events (cooperative_scheduler n) s) =
  map (fun k => Z.of_nat k mod num_tasks) (seq 0 n).
Proof.
  induction n as [|n IH]; [reflexivity|].
  unfold cooperative_scheduler in *.
  rewrite <- Nat.add_1_r.
  destruct (scheduler_turns_add n 1 0 s) as (_ & E). rewrite E.
  rewrite call_order_app, IH, seq_app, map_app. f_equal.
  rewrite scheduler_turns_S_events, scheduler_turns_O_events, app_nil_r.
  exact (turn_events_calls n s).
Qed.

(** C3 as stated fails: the first turn of the loop calls task 1 and not
    the emergency handler, and the handler is not called between the
    first call of task 1 and the first call of task 2. *)
Lemma handler_not_in_every_turn :
  handler_called (turn_events 0 idle) = false /\
  call_order (events (cooperative_scheduler 2) idle) = [0; 1].
Proof. split; reflexivity. Qed.

(** C3, amended.  The emergency handler is the third entry of the task
    table, and the loop calls one entry per turn, in table order: turn
    number [k] calls entry [k mod 3], so the handler is called in the
    turns with [k mod 3 = 2] and in no other, once in any three
    consecutive turns. *)
Theorem handler_every_third_turn :
  forall (s : state) (k : nat),
    call_order (turn_events k s) = [Z.of_nat k mod 3] /\
    handler_called (turn_events k s) = (Z.of_nat k mod 3 =? 2) /\
    call_order (events (cooperative_scheduler k) s) =
      map (fun j => Z.of_nat j mod 3) (seq 0 k) /\
    (calls EMERGENCY_INDEX (turn_events k s ++ turn_events (k + 1) s ++
                            turn_events (k + 2) s) = 1)%nat.
Proof.
  intros s k.
  pose proof (turn_events_calls k s) as C0.
  pose proof (turn_events_calls (k + 1) s) as C1.
  pose proof (turn_events_calls (k + 2) s) as C2.
  change num_tasks with 3 in *.
  split; [exact C0|]. split; [|split].
  - rewrite handler_called_call_order, C0. cbn. apply orb_false_r.
  - exact (run_call_order k s).
  - rewrite calls_call_order, !call_order_app, C0, C1, C2.
    cbn [app filter List.length]. unfold EMERGENCY_INDEX.
    rewrite !Nat2Z.inj_add. change (Z.of_nat 1) with 1. change (Z.of_nat 2) with 2.
    repeat match goal with
           | |- context [?a =? ?b] => destruct (Z.eqb_spec a b)
           end; cbn [List.length]; Z.div_mod_to_equations; lia.
Qed.
End CooperativeRuns.

Module CooperativeEmergency.
Import Cooperative CooperativeFacts CooperativeRuns.
Local Open Scope sim_scope.

(** The handler, called with the flag raised. *)
Lemma handler_raised s :
  emergency_flag s = true ->
  let latency := response_ms_of (u64 (timer s (timer_reads s))) (task_start_time s) in
  let s' := exec cooperative_task3_emergency s in
  max_response_time s' = Z.max (max_response_time s) latency /\
  emergency_flag s' = false /\
  task_start_time s' = task_start_time s /\
  events cooperative_task3_emergency s =
  [ EvEmergencyResponse latency (Z.max (max_response_time s) latency);
    EvGpio LED3_PIN 1; EvDelayMs 200; EvGpio LED3_PIN 0 ].
Proof.
  intro H. unfold cooperative_task3_emergency, exec, events.
  cbn [bind gets fst snd]. rewrite H.
  cbn [bind gets modify emit esp_timer_get_time gpio_set_level fst snd app
       set_timer_reads task_start_time max_response_time].
  destruct (Z.ltb_spec (max_response_time s)
              (response_ms_of (u64 (timer s (timer_reads s))) (task_start_time s)))
    as [L|L]; cbn; rewrite ?Z.max_r, ?Z.max_l by lia; repeat split.
Qed.

(** The handler, called with the flag down, does nothing. *)
Lemma handler_calm s :
  emergency_flag s = false ->
  exec cooperative_task3_emergency s = s /\
  events cooperative_task3_emergency s = [].
Proof.
  intro H. unfold cooperative_task3_emergency, exec, events.
  cbn [bind gets fst snd]. rewrite H. split; reflexivity.
Qed.

Lemma handler_max_monotone s :
  max_response_time s <= max_response_time (exec cooperative_task3_emergency s).
Proof.
  destruct (emergency_flag s) eqn:F.
  - destruct (handler_raised s F) as (M & _). cbv zeta in M. rewrite M. lia.
  - destruct (handler_calm s F) as (E & _). rewrite E. lia.
Qed.

Lemma check_button_max s :
  max_response_time (exec check_button s) = max_response_time s.
Proof.
  unfold check_button, exec. cbn [bind gets gpio_get_level_button fst snd].
  destruct (_ && _); reflexivity.
Qed.

Lemma run_current_max_monotone c s :
  max_response_time s <= max_response_time (exec (run_current c) s).
Proof.
  unfold run_current, tasks.
  destruct (Z.to_nat c) as [|[|[|n]]]; cbn [nth_error ready task_function].
  - rewrite exec_bind, cooperative_task1_exec. cbn. lia.
  - rewrite exec_bind, cooperative_task2_exec. cbn. lia.
  - rewrite exec_bind. apply handler_max_monotone.
  - destruct n; cbn; lia.
Qed.

Lemma scheduler_turn_max_monotone c s :
  max_response_time s <= max_response_time (exec (scheduler_turn c) s).
Proof.
  rewrite scheduler_turn_exec, <- (check_button_max s).
  apply run_current_max_monotone.
Qed.

Lemma scheduler_turns_max_monotone (n : nat) :
  forall c s,
    max_response_time s <= max_response_time (exec (scheduler_turns n c) s).
Proof.
  induction n as [|n IH]; intros c s; [cbn; lia|].
  rewrite scheduler_turns_S_exec.
  etransitivity; [apply (scheduler_turn_max_monotone c)|apply IH].
Qed.

(** C8.  Called with the flag raised, the emergency handler computes the
    latency from the timer and [task_start_time], in milliseconds, makes
    [max_response_time] the maximum of its old value and this latency,
    and clears the flag; over a run of the scheduler [max_response_time]
    never decreases. *)
Theorem handler_postcondition :
  forall s : state,
    emergency_flag s = true ->
    let now := u64 (timer s (timer_reads s)) in
    let latency := u32 (u64 (now - task_start_time s) / 1000) in
    let s' := exec cooperative_task3_emergency s in
    max_response_time s' = Z.max (max_response_time s) latency /\
    emergency_flag s' = false /\
    events cooperative_task3_emergency s =
    [ EvEmergencyResponse latency (max_response_time s');
      EvGpio LED3_PIN 1; EvDelayMs 200; EvGpio LED3_PIN 0 ] /\
    (forall (a b : nat) (s0 : state),
       max_response_time (exec (cooperative_scheduler a) s0) <=
       max_response_time (exec (cooperative_scheduler (a + b)) s0)).
Proof.
  intros s F now latency s'.
  destruct (handler_raised s F) as (M & C & _ & E).
  split; [exact M|]. split; [exact C|]. split.
  - subst s'. rewrite M. exact E.
  - intros a b s0. unfold cooperative_scheduler.
    destruct (scheduler_turns_add a b 0 s0) as (X & _). rewrite X.
    apply scheduler_turns_max_monotone.
Qed.

Lemma handler_postcondition_witness :
  emergency_flag raised = true /\
  max_response_time (exec cooperative_task3_emergency raised) = 89 /\
  emergency_flag (exec cooperative_task3_emergency raised) = false.
Proof.
  split; [reflexivity|].
  destruct (handler_postcondition raised eq_refl) as (M & C & _).
  split; [exact M | exact C].
Defined.
End CooperativeEmergency.

(** ** Single-precision arithmetic *)

Module Binary32Facts.
Import Binary32.

Lemma iter_pos_iter {A : Type} (f : A -> A) (p : positive) :
  forall x, iter_pos f p x = Pos.iter f x p.
Proof.
  induction p as [p IH|p IH|]; intro x; cbn [iter_pos].
  - rewrite !IH, !Pos.iter_swap. reflexivity.
  - rewrite !IH. reflexivity.
  - reflexivity.
Qed.

(** The number of binary digits of a mantissa. *)
Lemma digits2_pos_bounds (m : positive) :
  2 ^ (Z.pos (digits2_pos m) - 1) <= Z.pos m < 2 ^ Z.pos (digits2_pos m).
Proof.
  induction m as [m IH|m IH|]; cbn [digits2_pos].
  - rewrite Pos2Z.inj_succ.
    replace (Z.succ (Z.pos (digits2_pos m)) - 1) with (Z.succ (Z.pos (digits2_pos m) - 1)) by lia.
    rewrite !Z.pow_succ_r by lia. lia.
  - rewrite Pos2Z.inj_succ.
    replace (Z.succ (Z.pos (digits2_pos m)) - 1) with (Z.succ (Z.pos (digits2_pos m) - 1)) by lia.
    rewrite !Z.pow_succ_r by lia. lia.
  - split; [discriminate | reflexivity].
Qed.

Lemma digits2_pos_unique (m : positive) (k : Z) :
  2 ^ (k - 1) <= Z.pos m < 2 ^ k -> Z.pos (digits2_pos m) = k.
Proof.
  intros [L U]. pose proof (digits2_pos_bounds m) as [L' U'].
  assert (0 < k).
  { destruct k as [|k|k]; [|lia|]; cbn in U; lia. }
  destruct (Z.lt_trichotomy (Z.pos (digits2_pos m)) k) as [C|[C|C]]; [|exact C|].
  - assert (2 ^ Z.pos (digits2_pos m) <= 2 ^ (k - 1)) by (apply Z.pow_le_mono_r; lia). lia.
  - assert (2 ^ k <= 2 ^ (Z.pos (digits2_pos m) - 1)) by (apply Z.pow_le_mono_r; lia). lia.
Qed.

(** Aligning a mantissa to a smaller exponent multiplies it by a power
    of two. *)
Lemma iter_xO_pow (m d : positive) :
  Z.pos (Pos.iter xO m d) = Z.pos m * 2 ^ Z.pos d.
Proof.
  induction d as [|d IH] using Pos.peano_ind.
  - cbn [Pos.iter]. lia.
  - rewrite Pos.iter_succ, Pos2Z.inj_succ, Z.pow_succ_r by lia.
    change (Z.pos (Pos.iter xO m d)~0) with (2 * Z.pos (Pos.iter xO m d)).
    rewrite IH. ring.
Qed.

Lemma shl_align_value (m : positive) (e e' : Z) :
  e' <= e ->
  snd (shl_align m e e') = e' /\
  Z.pos (fst (shl_align m e e')) = Z.pos m * 2 ^ (e - e').
Proof.
  intro H. unfold shl_align.
  destruct (e' - e) as [|d|d] eqn:D; try lia.
  - assert (e' = e) by lia. subst e'. cbn [fst snd].
    rewrite Z.sub_diag, Z.pow_0_r. split; lia.
  - cbn [fst snd]. rewrite iter_xO_pow.
    replace (e - e') with (Z.pos d) by lia. split; reflexivity.
Qed.

(** One right shift of a non-negative mantissa. *)
Lemma shr_1_nonneg (m : Z) (r s : bool) :
  0 <= m ->
  shr_1 (Build_shr_record m r s) = Build_shr_record (m / 2) (Z.odd m) (r || s).
Proof.
  intro H. rewrite <- Z.div2_div.
  destruct m as [|p|p]; [reflexivity| |lia].
  destruct p; reflexivity.
Qed.

(** [k] right shifts keep the quotient by [2 ^ k] and record where the
    remainder lies with respect to the half. *)
Lemma shr_iter_spec (M : Z) (p : positive) :
  0 <= M ->
  exists q rem,
    Pos.iter shr_1 (Build_shr_record M false false) p =
    Build_shr_record q (2 ^ (Z.pos p - 1) <=? rem)
      (negb ((rem =? 0) || (rem =? 2 ^ (Z.pos p - 1)))) /\
    M = q * 2 ^ Z.pos p + rem /\ 0 <= rem < 2 ^ Z.pos p /\ 0 <= q.
Proof.
  intro HM.
  apply (Pos.iter_ind _ shr_1 (Build_shr_record M false false)
           (fun p rec => exists q rem,
              rec = Build_shr_record q (2 ^ (Z.pos p - 1) <=? rem)
                      (negb ((rem =? 0) || (rem =? 2 ^ (Z.pos p - 1)))) /\
              M = q * 2 ^ Z.pos p + rem /\ 0 <= rem < 2 ^ Z.pos p /\ 0 <= q)).
  - exists (M / 2), (M mod 2).
    rewrite shr_1_nonneg by exact HM.
    change (2 ^ (1 - 1)) with 1. change (2 ^ 1) with 2.
    pose proof (Z.mod_pos_bound M 2 ltac:(lia)) as B.
    pose proof (Z.div_mod M 2 ltac:(lia)) as D.
    assert (Q : 0 <= M / 2) by (apply Z.div_pos; lia).
    split; [|repeat split; lia].
    f_equal.
    + rewrite Zodd_mod. destruct (Z.eqb_spec (M mod 2) 1), (Z.leb_spec 1 (M mod 2)); lia.
    + destruct (Z.eqb_spec (M mod 2) 0), (Z.eqb_spec (M mod 2) 1); cbn; lia.
  - clear p. intros p rec (q & rem & -> & E & B & Q).
    exists (q / 2), (q mod 2 * 2 ^ Z.pos p + rem).
    rewrite shr_1_nonneg by exact Q.
    rewrite Pos2Z.inj_succ.
    replace (Z.succ (Z.pos p) - 1) with (Z.pos p) by lia.
    rewrite Z.pow_succ_r by lia.
    assert (P : 2 ^ Z.pos p = 2 * 2 ^ (Z.pos p - 1)).
    { rewrite <- Z.pow_succ_r by lia. f_equal. lia. }
    assert (H1 : 0 < 2 ^ (Z.pos p - 1)) by (apply Z.pow_pos_nonneg; lia).
    pose proof (Z.mod_pos_bound q 2 ltac:(lia)) as Bq.
    pose proof (Z.div_mod q 2 ltac:(lia)) as Dq.
    assert (Q2 : 0 <= q / 2) by (apply Z.div_pos; lia).
    set (h := 2 ^ (Z.pos p - 1)) in *. set (P2 := 2 ^ Z.pos p) in *.
    assert (C : q mod 2 = 0 \/ q mod 2 = 1) by lia.
    split; [|split; [|split]].
    + f_equal.
      * rewrite Zodd_mod.
        destruct C as [C|C]; rewrite C;
          destruct (Z.leb_spec P2 (0 * P2 + rem)), (Z.leb_spec P2 (1 * P2 + rem));
          cbn; lia.
      * destruct C as [C|C]; rewrite C;
          destruct (Z.leb_spec h rem), (Z.eqb_spec rem 0), (Z.eqb_spec rem h);
          repeat match goal with
                 | |- context [?a =? ?b] => destruct (Z.eqb_spec a b)
                 end; cbn; lia.
    + rewrite E. destruct C as [C|C]; rewrite C; nia.
    + destruct C as [C|C]; rewrite C; lia.
    + exact Q2.
Qed.
End Binary32Facts.

Module Binary32Rounding.
Import Binary32 Binary32Facts.

(** Dropping [p] bits by right shifts and rounding on the recorded
    location is [round_half_even]. *)
Lemma shr_round (M : Z) (p : positive) :
  0 <= M ->
  exists rec,
    iter_pos shr_1 p (shr_record_of_loc M loc_Exact) = rec /\
    round_nearest_even (shr_m rec) (loc_of_shr_record rec) =
    round_half_even M (Z.pos p).
Proof.
  intro HM. rewrite iter_pos_iter. cbn [shr_record_of_loc].
  destruct (shr_iter_spec M p HM) as (q & rem & -> & E & B & Q).
  eexists. split; [reflexivity|].
  assert (P : 0 < 2 ^ Z.pos p) by (apply Z.pow_pos_nonneg; lia).
  assert (Dq : M / 2 ^ Z.pos p = q).
  { symmetry. apply (Z.div_unique_pos M (2 ^ Z.pos p) q rem); [exact B | lia]. }
  assert (Dr : M mod 2 ^ Z.pos p = rem).
  { symmetry. apply (Z.mod_unique_pos M (2 ^ Z.pos p) q rem); [exact B | lia]. }
  unfold round_half_even. cbv zeta. rewrite Dq, Dr.
  cbn [shr_m loc_of_shr_record shr_r shr_s].
  assert (H1 : 0 < 2 ^ (Z.pos p - 1)) by (apply Z.pow_pos_nonneg; lia).
  set (h := 2 ^ (Z.pos p - 1)) in *.
  destruct (Z.leb_spec h rem), (Z.ltb_spec rem h), (Z.eqb_spec rem 0), (Z.eqb_spec rem h);
    cbn; try lia; reflexivity.
Qed.

Lemma round_half_even_error (M k : Z) :
  0 <= M -> 0 < k ->
  let m1 := round_half_even M k in
  - 2 ^ (k - 1) <= m1 * 2 ^ k - M <= 2 ^ (k - 1) /\
  M / 2 ^ k <= m1 <= M / 2 ^ k + 1.
Proof.
  intros HM Hk. unfold round_half_even. cbv zeta.
  assert (P : 2 ^ k = 2 * 2 ^ (k - 1)).
  { rewrite <- Z.pow_succ_r by lia. f_equal. lia. }
  assert (H1 : 0 < 2 ^ (k - 1)) by (apply Z.pow_pos_nonneg; lia).
  pose proof (Z.div_mod M (2 ^ k) ltac:(lia)) as D.
  pose proof (Z.mod_pos_bound M (2 ^ k) ltac:(lia)) as B.
  set (h := 2 ^ (k - 1)) in *. set (q := M / 2 ^ k) in *. set (rem := M mod 2 ^ k) in *.
  rewrite P in *.
  destruct (Z.ltb_spec rem h); [|destruct (Z.eqb_spec rem h); [destruct (Z.even q)|]];
    split; nia.
Qed.

(** A value within half a unit of an even [K] rounds to [K]. *)
Lemma round_half_even_target (M K k : Z) :
  0 < k -> Z.even K = true ->
  - 2 ^ (k - 1) <= M - K * 2 ^ k <= 2 ^ (k - 1) ->
  round_half_even M k = K.
Proof.
  intros Hk HK HB. unfold round_half_even. cbv zeta.
  assert (P : 2 ^ k = 2 * 2 ^ (k - 1)).
  { rewrite <- Z.pow_succ_r by lia. f_equal. lia. }
  assert (H1 : 0 < 2 ^ (k - 1)) by (apply Z.pow_pos_nonneg; lia).
  pose proof (Z.div_mod M (2 ^ k) ltac:(lia)) as D.
  pose proof (Z.mod_pos_bound M (2 ^ k) ltac:(lia)) as B.
  set (h := 2 ^ (k - 1)) in *. set (q := M / 2 ^ k) in *. set (rem := M mod 2 ^ k) in *.
  rewrite P in *.
  assert (C : q = K \/ q = K - 1) by nia.
  destruct C as [C|C].
  - destruct (Z.ltb_spec rem h); [exact C|].
    destruct (Z.eqb_spec rem h); [|nia].
    rewrite C, HK. reflexivity.
  - assert (O : Z.even q = false).
    { rewrite C, Z.even_sub, HK. reflexivity. }
    destruct (Z.ltb_spec rem h); [nia|].
    destruct (Z.eqb_spec rem h); [rewrite O|]; lia.
Qed.

Lemma fexp_eq (x : Z) : fexp prec emax x = Z.max (x - 24) (-149).
Proof. reflexivity. Qed.

(** A mantissa that needs no shift is kept as it is. *)
Lemma round_aux_exact (m : positive) (e : Z) :
  fexp prec emax (Z.pos (digits2_pos m) + e) <= e ->
  e <= 104 ->
  binary_round_aux prec emax false (Z.pos m) e loc_Exact = S754_finite false m e.
Proof.
  intros H He. unfold binary_round_aux, shr_fexp.
  cbn [Zdigits2 shr_record_of_loc].
  assert (S0 : forall rec, shr rec e (fexp prec emax (Z.pos (digits2_pos m) + e) - e) = (rec, e)).
  { intro rec. unfold shr.
    destruct (fexp prec emax (Z.pos (digits2_pos m) + e) - e) eqn:D; try reflexivity. lia. }
  rewrite S0. cbn [shr_m loc_of_shr_record shr_r shr_s round_nearest_even Zdigits2
                   shr_record_of_loc].
  rewrite S0. cbn [shr_m].
  replace (e <=? emax - prec) with true; [reflexivity|].
  symmetry. apply Z.leb_le. exact He.
Qed.

(** A mantissa of [24 + p] digits is rounded to 24 digits; the result
    stands for [round_half_even (Z.pos m) p * 2 ^ (e + p)]. *)
Lemma round_aux_normal (m : positive) (e : Z) (p : positive) :
  Z.pos (digits2_pos m) = 24 + Z.pos p ->
  -149 <= e -> e + Z.pos p < 104 ->
  exists mr er,
    binary_round_aux prec emax false (Z.pos m) e loc_Exact = S754_finite false mr er /\
    e < er /\
    Z.pos mr * 2 ^ (er - e) = round_half_even (Z.pos m) (Z.pos p) * 2 ^ Z.pos p.
Proof.
  intros Hd He Hmax.
  pose proof (digits2_pos_bounds m) as Bm. rewrite Hd in Bm.
  replace (24 + Z.pos p - 1) with (23 + Z.pos p) in Bm by lia.
  rewrite !Z.pow_add_r in Bm by lia.
  assert (P : 0 < 2 ^ Z.pos p) by (apply Z.pow_pos_nonneg; lia).
  destruct (round_half_even_error (Z.pos m) (Z.pos p) ltac:(lia) ltac:(lia)) as (_ & Q).
  cbv zeta in Q.
  assert (Q1 : 2 ^ 23 <= Z.pos m / 2 ^ Z.pos p < 2 ^ 24).
  { split.
    - apply Z.div_le_lower_bound; lia.
    - apply Z.div_lt_upper_bound; lia. }
  set (m1 := round_half_even (Z.pos m) (Z.pos p)) in *.
  unfold binary_round_aux, shr_fexp. cbn [Zdigits2].
  rewrite Hd, fexp_eq.
  replace (Z.max (24 + Z.pos p + e - 24) (-149) - e) with (Z.pos p) by lia.
  unfold shr at 1.
  destruct (shr_round (Z.pos m) p ltac:(lia)) as (rec & -> & R). fold m1 in R.
  rewrite R.
  assert (M1 : 2 ^ 23 <= m1 <= 2 ^ 24) by lia.
  destruct m1 as [|m1p|m1p] eqn:E1; try lia.
  destruct (Z.eq_dec (Z.pos m1p) (2 ^ 24)) as [C|C].
  - (* the rounding carried into a 25th digit *)
    injection C as ->.
    exists 8388608%positive, (e + Z.pos p + 1).
    split; [|split; [lia|]].
    + cbn [Zdigits2 digits2_pos Pos.succ shr_record_of_loc]. rewrite fexp_eq.
      replace (Z.max (25 + (e + Z.pos p) - 24) (-149) - (e + Z.pos p)) with 1 by lia.
      cbn [shr iter_pos shr_1 shr_m].
      replace (e + Z.pos p + 1 <=? emax - prec) with true; [reflexivity|].
      symmetry. apply Z.leb_le. unfold emax, prec. lia.
    + replace (e + Z.pos p + 1 - e) with (Z.succ (Z.pos p)) by lia.
      rewrite Z.pow_succ_r by lia. lia.
  - exists m1p, (e + Z.pos p).
    assert (D1 : Z.pos (digits2_pos m1p) = 24).
    { apply digits2_pos_unique. change (2 ^ (24 - 1)) with (2 ^ 23). lia. }
    split; [|split; [lia|]].
    + cbn [Zdigits2 shr_record_of_loc]. rewrite D1, fexp_eq.
      replace (Z.max (24 + (e + Z.pos p) - 24) (-149) - (e + Z.pos p)) with 0 by lia.
      cbn [shr shr_m].
      replace (e + Z.pos p <=? emax - prec) with true; [reflexivity|].
      symmetry. apply Z.leb_le. unfold emax, prec. lia.
    + replace (e + Z.pos p - e) with (Z.pos p) by lia. reflexivity.
Qed.

Lemma binary_normalize_pos (M : positive) (e : Z) :
  binary_normalize prec emax (Z.pos M) e false =
  binary_round_aux prec emax false
    (Z.pos (fst (shl_align M e (fexp prec emax (Z.pos (digits2_pos M) + e)))))
    (snd (shl_align M e (fexp prec emax (Z.pos (digits2_pos M) + e)))) loc_Exact.
Proof.
  cbn [binary_normalize]. unfold binary_round.
  destruct (shl_align M e _). reflexivity.
Qed.

(** An exact sum within [2 ^ -18] of 100 is rounded to [100.0f]. *)
Lemma normalize_to_hundred (M : positive) (e : Z) :
  e <= -17 ->
  - 2 ^ (-17 - e - 1) <= Z.pos M - 13107200 * 2 ^ (-17 - e) <= 2 ^ (-17 - e - 1) ->
  binary_normalize prec emax (Z.pos M) e false = hundred.
Proof.
  intros He HB.
  assert (P : 0 < 2 ^ (-17 - e)) by (apply Z.pow_pos_nonneg; lia).
  assert (H1 : 0 <= 2 ^ (-17 - e - 1) <= 2 ^ (-17 - e)).
  { split; [apply Z.pow_nonneg; lia|].
    destruct (Z.eq_dec e (-17)) as [->|N]; [cbn; lia|].
    apply Z.pow_le_mono_r; lia. }
  assert (D : Z.pos (digits2_pos M) = 24 + (-17 - e)).
  { apply digits2_pos_unique.
    replace (24 + (-17 - e) - 1) with (23 + (-17 - e)) by lia.
    rewrite !Z.pow_add_r by lia.
    change (2 ^ 23) with 8388608. change (2 ^ 24) with 16777216. lia. }
  rewrite binary_normalize_pos, D, fexp_eq.
  replace (Z.max (24 + (-17 - e) + e - 24) (-149)) with (-17) by lia.
  unfold shl_align.
  destruct (-17 - e) as [|p|p] eqn:N; try lia; cbn [fst snd].
  - assert (e = -17) by lia. subst e.
    change (2 ^ (0 - 1)) with 0 in HB. change (2 ^ 0) with 1 in HB.
    assert (M = 13107200%positive) by lia. subst M.
    apply round_aux_exact; [reflexivity | lia].
  - unfold binary_round_aux, shr_fexp. cbn [Zdigits2].
    rewrite D, fexp_eq.
    replace (Z.max (24 + Z.pos p + e - 24) (-149) - e) with (Z.pos p) by lia.
    unfold shr at 1.
    destruct (shr_round (Z.pos M) p ltac:(lia)) as (rec & -> & R).
    rewrite R, (round_half_even_target (Z.pos M) 13107200 (Z.pos p)); try lia; try reflexivity.
    replace (e + Z.pos p) with (-17) by lia. reflexivity.
Qed.

Lemma bounded_canonical (m : positive) (e : Z) :
  bounded prec emax m e = true ->
  -149 <= e <= 104 /\ Z.pos (digits2_pos m) <= 24 /\ Z.pos m < 2 ^ 24 /\
  (-149 < e -> Z.pos (digits2_pos m) = 24).
Proof.
  unfold bounded, canonical_mantissa. rewrite andb_true_iff, Z.eqb_eq, Z.leb_le, fexp_eq.
  unfold emax, prec. intros [C L].
  assert (D : Z.pos (digits2_pos m) <= 24) by lia.
  repeat split; try lia.
  pose proof (digits2_pos_bounds m) as [_ U].
  assert (2 ^ Z.pos (digits2_pos m) <= 2 ^ 24) by (apply Z.pow_le_mono_r; lia). lia.
Qed.

(** [100.0f - u] for a float [0 < u < 100]: the difference is rounded by
    at most [2 ^ -18], so that adding [u] back gives an exact sum within
    [2 ^ -18] of 100. *)
Lemma sub_from_hundred (m : positive) (e : Z) :
  bounded prec emax m e = true ->
  e <= -17 ->
  Z.pos m < 13107200 * 2 ^ (-17 - e) ->
  exists mr er,
    sub hundred (S754_finite false m e) = S754_finite false mr er /\
    let ez := Z.min e er in
    - 2 ^ (-17 - ez - 1) <=
      Z.pos m * 2 ^ (e - ez) + Z.pos mr * 2 ^ (er - ez) - 13107200 * 2 ^ (-17 - ez) <=
      2 ^ (-17 - ez - 1).
Proof.
  intros Hb He Hlt.
  destruct (bounded_canonical m e Hb) as (Be & Dm & Um & _).
  unfold sub, SFsub, hundred. cbv zeta.
  replace (Z.min (-17) e) with e by lia.
  cbn [cond_Zopp].
  destruct (shl_align_value 13107200 (-17) e He) as (_ & A1).
  destruct (shl_align_value m e e (Z.le_refl e)) as (_ & A2).
  rewrite A1, A2, Z.sub_diag, Z.pow_0_r, Z.mul_1_r.
  set (n := -17 - e) in *.
  assert (P : 0 < 2 ^ n) by (apply Z.pow_pos_nonneg; lia).
  destruct (13107200 * 2 ^ n - Z.pos m) as [|M1|M1] eqn:EM; try lia.
  rewrite binary_normalize_pos.
  pose proof (digits2_pos_bounds M1) as [L1 U1].
  set (d1 := Z.pos (digits2_pos M1)) in *.
  assert (D1 : d1 <= 24 + n).
  { destruct (Z.le_gt_cases d1 (24 + n)) as [|G]; [assumption|].
    assert (2 ^ (24 + n) <= 2 ^ (d1 - 1)) by (apply Z.pow_le_mono_r; lia).
    rewrite Z.pow_add_r in * by lia. change (2 ^ 24) with 16777216 in *. lia. }
  rewrite fexp_eq.
  destruct (Z.le_gt_cases d1 24) as [C|C].
  - (* the difference fits in 24 digits: it is exact *)
    set (E := Z.max (d1 + e - 24) (-149)).
    assert (EE : E <= e) by (unfold E; lia).
    destruct (shl_align_value M1 e E EE) as (A3 & A4).
    set (mz := fst (shl_align M1 e E)) in *. rewrite A3.
    assert (P2 : 0 < 2 ^ (e - E)) by (apply Z.pow_pos_nonneg; lia).
    assert (Dz : Z.pos (digits2_pos mz) = d1 + (e - E)).
    { apply digits2_pos_unique. rewrite A4.
      replace (d1 + (e - E) - 1) with ((d1 - 1) + (e - E)) by lia.
      rewrite !Z.pow_add_r by (unfold d1; lia). nia. }
    exists mz, E. split.
    + apply round_aux_exact; [|lia]. rewrite Dz, fexp_eq. unfold E. lia.
    + cbv zeta. replace (Z.min e E) with E by lia.
      rewrite Z.sub_diag, Z.pow_0_r, Z.mul_1_r, A4.
      replace (-17 - E) with (n + (e - E)) by (unfold n; lia).
      rewrite Z.pow_add_r by lia.
      assert (0 <= 2 ^ (n + (e - E) - 1)) by (apply Z.pow_nonneg; lia).
      rewrite <- Z.pow_add_r by lia. rewrite Z.pow_add_r by lia. nia.
  - (* more than 24 digits: rounded to 24 *)
    destruct (d1 - 24) as [|p1|p1] eqn:Ep; try lia.
    replace (Z.max (d1 + e - 24) (-149)) with (e + Z.pos p1) by lia.
    unfold shl_align.
    replace (e + Z.pos p1 - e) with (Z.pos p1) by lia. cbn [fst snd].
    destruct (round_aux_normal M1 e p1) as (mr & er & R & Her & V);
      [fold d1; lia | lia | lia |].
    exists mr, er. split; [exact R|].
    cbv zeta. replace (Z.min e er) with e by lia.
    rewrite Z.sub_diag, Z.pow_0_r, Z.mul_1_r, V. fold n.
    destruct (round_half_even_error (Z.pos M1) (Z.pos p1) ltac:(lia) ltac:(lia)) as (Er & _).
    cbv zeta in Er.
    assert (2 ^ (Z.pos p1 - 1) <= 2 ^ (n - 1)) by (apply Z.pow_le_mono_r; lia).
    lia.
Qed.

(** For a float [u] between 0 and 100, [u + (100.0f - u)] is exactly
    [100.0f]. *)
Lemma add_complement_hundred (u : float) :
  valid_binary prec emax u = true ->
  leb zero u = true ->
  leb u hundred = true ->
  add u (sub hundred u) = hundred.
Proof.
  intros Hv H0 H100.
  destruct u as [s|s| |s m e].
  - destruct s; reflexivity.
  - destruct s; discriminate.
  - discriminate.
  - destruct s; [discriminate|].
    cbn [valid_binary] in Hv.
    destruct (bounded_canonical m e Hv) as (Be & Dm & Um & Nm).
    assert (He : e <= -17 /\ Z.pos m <= 13107200 * 2 ^ (-17 - e)).
    { unfold leb, hundred in H100. cbn [SFcompare] in H100.
      destruct (Z.compare_spec e (-17)) as [->|L|G]; try discriminate.
      - split; [lia|]. cbn.
        change (Pos.compare_cont Eq m 13107200) with (Pos.compare m 13107200) in H100.
        destruct (Pos.compare_spec m 13107200); try discriminate; lia.
      - split; [lia|].
        assert (2 ^ 1 <= 2 ^ (-17 - e)) by (apply Z.pow_le_mono_r; lia).
        change (2 ^ 24) with 16777216 in Um. change (2 ^ 1) with 2 in *. lia. }
    destruct He as (He & Hm).
    destruct (Z.eq_dec (Z.pos m) (13107200 * 2 ^ (-17 - e))) as [Q|Q].
    + assert (e = -17).
      { destruct (Z.eq_dec e (-17)) as [|N]; [assumption|].
        assert (2 ^ 1 <= 2 ^ (-17 - e)) by (apply Z.pow_le_mono_r; lia).
        change (2 ^ 24) with 16777216 in Um. change (2 ^ 1) with 2 in *. lia. }
      subst e. cbn in Q. injection Q as ->. reflexivity.
    + destruct (sub_from_hundred m e Hv He ltac:(lia)) as (mr & er & -> & B).
      cbv zeta in B. unfold add, SFadd. cbv zeta. cbn [cond_Zopp].
      set (ez := Z.min e er) in *.
      destruct (shl_align_value m e ez ltac:(unfold ez; lia)) as (_ & A1).
      destruct (shl_align_value mr er ez ltac:(unfold ez; lia)) as (_ & A2).
      rewrite <- A1, <- A2 in B.
      rewrite <- Pos2Z.inj_add in *.
      apply normalize_to_hundred; [unfold ez; lia | exact B].
Qed.
End Binary32Rounding.

Module TimeSharingReport.
Import TimeSharing TimeSharingFacts TimeSharingStatistics Binary32Rounding.
Local Open Scope sim_scope.

Lemma round_stats_app l1 l2 : round_stats (l1 ++ l2) = round_stats l1 ++ round_stats l2.
Proof. apply filter_app. Qed.

Lemma avg_per_task_us_exact busy cs :
  0 <= busy < 2 ^ 64 -> 0 < cs -> cs mod 20 = 0 ->
  avg_per_task_us_of busy cs = busy / cs.
Proof.
  intros Hb Hc Hm. unfold avg_per_task_us_of.
  destruct (Z.ltb_spec 0 cs); [|lia].
  apply i64_small.
  assert (20 <= cs) by (Z.div_mod_to_equations; lia).
  split; [apply Z.div_pos; lia|].
  apply Z.div_lt_upper_bound; [lia|].
  change (2 ^ 64) with 18446744073709551616 in Hb.
  change (2 ^ 63) with 9223372036854775808. nia.
Qed.

(** C6.  A turn of [manual_task] prints the statistics exactly when the
    scheduler is enabled and [context_switches], after the dispatch, is a
    positive multiple of 20.  The report computes the utilisation as
    busy time / total time * 100 in single precision (total time being
    the timer value, when it is not 0), the overhead as 100 - utilisation,
    so that utilisation + overhead is exactly 100 for a utilisation
    between 0 and 100, and the average as busy time / context switches. *)
Theorem periodic_statistics :
  forall s : state,
    let cs := context_switches s in
    let busy := context_switch_time s in
    let total_time := u64 (timer s (timer_reads s)) in
    let cpu_utilization := cpu_utilization_of busy total_time in
    let overhead_percentage := overhead_percentage_of cpu_utilization in
    (events report_statistics s <> [] <-> 0 < cs /\ cs mod 20 = 0) /\
    (0 < cs /\ cs mod 20 = 0 ->
     events report_statistics s =
     [ EvRoundStats (u32 (round_count s + 1)) cs (i64 total_time) (i64 busy)
         cpu_utilization overhead_percentage (avg_per_task_us_of busy cs) ]) /\
    (0 < total_time ->
     cpu_utilization =
     Binary32.mul (Binary32.div (Binary32.of_uint busy) (Binary32.of_uint total_time))
       Binary32.hundred) /\
    overhead_percentage = Binary32.sub Binary32.hundred cpu_utilization /\
    (valid_binary Binary32.prec Binary32.emax cpu_utilization = true ->
     Binary32.leb Binary32.zero cpu_utilization = true ->
     Binary32.leb cpu_utilization Binary32.hundred = true ->
     Binary32.add cpu_utilization overhead_percentage = Binary32.hundred) /\
    (0 <= busy < 2 ^ 64 -> 0 < cs -> cs mod 20 = 0 ->
     avg_per_task_us_of busy cs = busy / cs) /\
    round_stats (events manual_task_iteration s) =
    (if run_manual_scheduler s
     then round_stats
            (events report_statistics (exec (dispatch_cycle (current_time_slice_ms s)) s))
     else []).
Proof.
  intros s cs busy total_time cpu_utilization overhead_percentage.
  pose proof (report_statistics_events s) as E. cbv zeta in E.
  fold cs busy total_time cpu_utilization overhead_percentage in E.
  pose proof (report_due_spec cs) as D.
  split; [|split; [|split; [|split; [|split; [|split]]]]].
  - rewrite E. destruct (report_due cs).
    + split; [intros _; apply D; reflexivity | discriminate].
    + split; [congruence|]. intro H. apply D in H. discriminate.
  - intro H. apply D in H. rewrite E, H. reflexivity.
  - intro H. unfold cpu_utilization, cpu_utilization_of.
    destruct (Z.ltb_spec 0 total_time); [reflexivity | lia].
  - reflexivity.
  - intros V L U. exact (add_complement_hundred cpu_utilization V L U).
  - apply avg_per_task_us_exact.
  - rewrite manual_task_iteration_events.
    destruct (run_manual_scheduler s); [|reflexivity].
    rewrite round_stats_app, round_stats_cycle. reflexivity.
Qed.

Lemma periodic_statistics_witness :
  0 < context_switches reporting /\ context_switches reporting mod 20 = 0 /\
  0 < u64 (timer reporting (timer_reads reporting)) /\
  Binary32.add (cpu_utilization_of 1200000 3000000)
    (overhead_percentage_of (cpu_utilization_of 1200000 3000000)) = Binary32.hundred /\
  avg_per_task_us_of 1200000 40 = 30000.
Proof.
  destruct (periodic_statistics reporting) as (_ & _ & _ & _ & S & A & _).
  split; [reflexivity|]. split; [reflexivity|]. split; [reflexivity|]. split.
  - apply S; reflexivity.
  - apply A; [split; [discriminate | reflexivity] | reflexivity | reflexivity].
Defined.
End TimeSharingReport.

(** ** Further properties of the time-sharing scheduler *)

Module TimeSharingMore.
Import TimeSharing TimeSharingFacts TimeSharingExperiment TimeSharingStatistics.
Local Open Scope sim_scope.

Lemma dispatch_cycles_add_events (a b : nat) ts s :
  events (dispatch_cycles (a + b) ts) s =
  events (dispatch_cycles a ts) s ++
  events (dispatch_cycles b ts) (exec (dispatch_cycles a ts) s).
Proof. apply events_repeatM_add. Qed.

Lemma dispatch_cycles_add_exec (a b : nat) ts s :
  exec (dispatch_cycles (a + b) ts) s =
  exec (dispatch_cycles b ts) (exec (dispatch_cycles a ts) s).
Proof. apply exec_repeatM_add. Qed.

Lemma dispatch_cycles_S_events (n : nat) ts s :
  events (dispatch_cycles (S n) ts) s =
  events (dispatch_cycle ts) s ++ events (dispatch_cycles n ts) (exec (dispatch_cycle ts) s).
Proof. reflexivity. Qed.

(** Fewer than four cycles from a counter that is a multiple of 4 select
    the first tasks of the registry, once each. *)
Lemma short_run_selections ts t (r : nat) s :
  task_counter s mod 4 = 0 -> (r < 4)%nat ->
  selections t (events (dispatch_cycles r ts) s) =
  if task_index t <? Z.of_nat r then 1%nat else 0%nat.
Proof.
  intros H0 Hr.
  assert (C : r = 0%nat \/ r = 1%nat \/ r = 2%nat \/ r = 3%nat) by lia.
  destruct C as [ -> | [ -> | [ -> | -> ] ] ];
    rewrite ?dispatch_cycles_S_events, ?selections_app;
    change (events (dispatch_cycles 0 ts) _) with (@nil event);
    change (selections t []) with 0%nat;
    rewrite ?cycle_selections, ?cycle_task_counter; unfold TASK_COUNT;
    repeat match goal with
           | |- context [u32 ?x mod 4] => rewrite (u32_mod4 x)
           end;
    repeat match goal with
           | |- context [u32 ?x] =>
               let H := fresh in
               pose proof (u32_mod4 x) as H; revert H; generalize (u32 x)
           end;
    intros;
    destruct t; cbn [task_index Z.of_nat Pos.of_succ_nat Pos.succ];
    repeat match goal with
           | |- context [?a =? ?b] => destruct (Z.eqb_spec a b)
           end;
    repeat match goal with
           | |- context [?a <? ?b] => destruct (Z.ltb_spec a b)
           end;
    try reflexivity; Z.div_mod_to_equations; lia.
Qed.

(** X1.  In a run of any number [N] of dispatch cycles started with
    [task_counter = 0] the task of index [i] is selected
    [(N + 3 - i) / 4] times: the counts of two tasks differ by at most
    one, the earlier tasks of the registry being served first. *)
Theorem selections_any_length :
  forall (ts : Z) (s : state) (N : nat) (t : task_id_t),
    task_counter s = 0 ->
    Z.of_nat (selections t (events (dispatch_cycles N ts) s)) =
    (Z.of_nat N + 3 - task_index t) / TASK_COUNT.
Proof.
  intros ts s N t H0. unfold TASK_COUNT.
  assert (EN : N = (4 * (N / 4) + N mod 4)%nat) by (apply Nat.div_mod_eq).
  assert (R : (N mod 4 < 4)%nat) by (apply Nat.mod_upper_bound; lia).
  revert EN R. generalize (N / 4)%nat (N mod 4)%nat. intros q r -> R.
  rewrite dispatch_cycles_add_events, selections_app, fairness_from_any_counter.
  rewrite short_run_selections; [| |exact R].
  - destruct t; cbn [task_index];
      repeat match goal with
             | |- context [?a <? ?b] => destruct (Z.ltb_spec a b)
             end; Z.div_mod_to_equations; lia.
  - destruct (dispatch_cycles_state ts (4 * q) s) as (T & _). cbv zeta in T.
    rewrite <- u32_mod4, T, u32_mod4, H0. Z.div_mod_to_equations; lia.
Qed.

Lemma selections_any_length_witness :
  task_counter boot = 0 /\
  Z.of_nat (selections TASK_PROCESS (events (dispatch_cycles 6 50) boot)) = 2 /\
  Z.of_nat (selections TASK_DISPLAY (events (dispatch_cycles 6 50) boot)) = 1.
Proof.
  split; [reflexivity|]. split.
  - exact (selections_any_length 50 boot 6 TASK_PROCESS eq_refl).
  - exact (selections_any_length 50 boot 6 TASK_DISPLAY eq_refl).
Defined.

(** The static counter of a task after one dispatch cycle, and the number
    its log line prints. *)
Lemma dispatch_cycle_invocation ts t s :
  invocation_count t (exec (dispatch_cycle ts) s) =
  (if task_index t =? task_counter s mod TASK_COUNT
   then u32 (invocation_count t s + 1) else invocation_count t s) /\
  (forall v, In (EvTaskLog t v) (events (dispatch_cycle ts) s) ->
             v = invocation_count t s).
Proof.
  destruct (selected_branch_spec (task_counter s)) as (t' & E & I).
  rewrite <- I. unfold exec, events; cbn. rewrite E.
  destruct t, t'; cbn; split; try reflexivity;
    intros v H; repeat (destruct H as [H|H]; try discriminate; try contradiction);
    now injection H.
Qed.

(** X2.  The static counter of each workload counts its selections: after
    any number of dispatch cycles it has advanced, modulo 2^32, by the
    number of times the task was selected, and every log line of a task
    prints the counter as it stood when the task was selected. *)
Theorem invocation_counters_track_selections :
  forall (ts : Z) (n : nat) (s : state) (t : task_id_t),
    u32 (invocation_count t (exec (dispatch_cycles n ts) s)) =
    u32 (invocation_count t s +
         Z.of_nat (selections t (events (dispatch_cycles n ts) s))) /\
    (forall (k : nat) (v : Z),
       In (EvTaskLog t v)
          (events (dispatch_cycle ts) (exec (dispatch_cycles k ts) s)) ->
       v = invocation_count t (exec (dispatch_cycles k ts) s)).
Proof.
  intros ts n s t. split.
  - revert s. induction n as [|n IH]; intro s.
    + cbn. now rewrite Z.add_0_r.
    + rewrite dispatch_cycles_S_events, selections_app.
      change (exec (dispatch_cycles (S n) ts) s)
        with (exec (dispatch_cycles n ts) (exec (dispatch_cycle ts) s)).
      rewrite IH, cycle_selections.
      destruct (dispatch_cycle_invocation ts t s) as (C & _). rewrite C.
      destruct (task_index t =? task_counter s mod TASK_COUNT).
      * unfold u32. rewrite Zplus_mod_idemp_l. f_equal; lia.
      * f_equal; lia.
  - intros k v H.
    exact (proj2 (dispatch_cycle_invocation ts t (exec (dispatch_cycles k ts) s)) v H).
Qed.

(** The busy time accumulated under a timer that does not run backwards
    is at most the time elapsed, and never decreases. *)
Lemma accumulated_bound (tm : nat -> Z) (n : nat) :
  forall (k : nat) (acc : Z),
    (forall i, 0 <= tm i < 2 ^ 63) ->
    (forall i j, (i <= j)%nat -> tm i <= tm j) ->
    0 <= acc ->
    acc + (tm (k + 2 * n)%nat - tm k) < 2 ^ 64 ->
    acc <= accumulated tm k n acc <= acc + (tm (k + 2 * n)%nat - tm k).
Proof.
  induction n as [|n IH]; intros k acc Hr Hm Ha Ho.
  - cbn [accumulated]. replace (k + 2 * 0)%nat with k by lia. lia.
  - cbn [accumulated].
    assert (R63 : 2 ^ 63 < 2 ^ 64) by reflexivity.
    pose proof (Hr k) as Rk. pose proof (Hr (S k)) as Rk1.
    pose proof (Hm k (S k) ltac:(lia)) as M1.
    pose proof (Hm (S k) (S (S k)) ltac:(lia)) as M2.
    pose proof (Hm (S (S k)) (S (S k) + 2 * n)%nat ltac:(lia)) as M3.
    replace (k + 2 * S n)%nat with (S (S k) + 2 * n)%nat in * by lia.
    rewrite (u64_small (tm k)), (u64_small (tm (S k))) by lia.
    rewrite (u64_small (tm (S k) - tm k)) by lia.
    rewrite (u64_small (acc + _)) by lia.
    specialize (IH (S (S k)) (acc + (tm (S k) - tm k)) Hr Hm ltac:(lia) ltac:(lia)).
    lia.
Qed.

Lemma trial_times_app l1 l2 :
  trial_times (l1 ++ l2) = trial_times l1 ++ trial_times l2.
Proof.
  induction l1 as [|e l1 IH]; [reflexivity|].
  destruct e; cbn; now rewrite ?IH.
Qed.

Lemma dispatch_cycles_no_times ts (n : nat) :
  forall s, trial_times (events (dispatch_cycles n ts) s) = [].
Proof.
  unfold dispatch_cycles.
  induction n as [|n IH]; intro s; [reflexivity|].
  rewrite events_repeatM_S, trial_times_app, IH, app_nil_r.
  unfold events; cbn.
  destruct (selected_branch (task_counter s)) as [[]|]; reflexivity.
Qed.

Lemma timed_trial_times ts (cycles : Sim unit) s :
  trial_times (events cycles (trial_start s)) = [] ->
  let s1 := exec cycles (trial_start s) in
  trial_times (events (timed_trial ts cycles) s) =
  [ (i64 (u64 (u64 (timer s1 (timer_reads s1)) - u64 (timer s (timer_reads s)))),
     i64 (context_switch_time s1)) ].
Proof.
  intro H. rewrite timed_trial_events. cbv zeta.
  cbn [trial_times]. rewrite trial_times_app, H. reflexivity.
Qed.

(** The times a trial reports, under a timer that does not run
    backwards. *)
Lemma slice_trial_times ts s :
  (forall i, 0 <= timer s i < 2 ^ 63) ->
  (forall i j, (i <= j)%nat -> timer s i <= timer s j) ->
  exists duration busy,
    trial_times (events (slice_trial ts) s) = [(duration, busy)] /\
    0 <= busy <= duration.
Proof.
  intros Hr Hm. unfold slice_trial.
  rewrite timed_trial_times by apply dispatch_cycles_no_times. cbv zeta.
  destruct (trial_start_state s) as (_ & B0 & _ & _ & _ & Tm0 & Tr0).
  destruct (dispatch_cycles_state ts iterations (trial_start s))
    as (_ & _ & B & _ & _ & _ & Tm & Tr).
  cbv zeta in *. rewrite B, Tm, Tr, B0, Tm0, Tr0.
  set (r := timer_reads s).
  assert (R63 : 2 ^ 63 < 2 ^ 64) by reflexivity.
  pose proof (Hr r) as R0. pose proof (Hr (S r + 2 * iterations)%nat) as R1.
  pose proof (Hr (S r)) as R2.
  pose proof (Hm r (S r) ltac:(lia)) as M0.
  pose proof (Hm (S r) (S r + 2 * iterations)%nat ltac:(lia)) as M1.
  destruct (accumulated_bound (timer s) iterations (S r) 0 Hr Hm ltac:(lia) ltac:(lia))
    as (L & U).
  rewrite (u64_small (timer s r)), (u64_small (timer s (S r + 2 * iterations)%nat)) by lia.
  rewrite (u64_small (_ - _)) by lia.
  rewrite !i64_small by lia.
  eexists _, _. split; [reflexivity|]. lia.
Qed.

Lemma slice_trial_timer ts s :
  timer (exec (slice_trial ts) s) = timer s.
Proof. apply (slice_trial_state ts s). Qed.

Lemma trials_times (slices : list Z) :
  forall s,
    (forall i, 0 <= timer s i < 2 ^ 63) ->
    (forall i j, (i <= j)%nat -> timer s i <= timer s j) ->
    Forall (fun db => 0 <= snd db <= fst db)
           (trial_times (events (forM slices slice_trial) s)).
Proof.
  induction slices as [|ts r IH]; intros s Hr Hm; [constructor|].
  cbn [forM]. rewrite events_bind, trial_times_app.
  apply Forall_app. split.
  - destruct (slice_trial_times ts s Hr Hm) as (d & b & -> & H).
    constructor; [exact H | constructor].
  - apply IH; rewrite slice_trial_timer; assumption.
Qed.

Lemma experiment_over_times (slices : list Z) s :
  (forall i, 0 <= timer s i < 2 ^ 63) ->
  (forall i j, (i <= j)%nat -> timer s i <= timer s j) ->
  Forall (fun db => 0 <= snd db <= fst db)
         (trial_times (events (experiment_over slices) s)).
Proof.
  intros Hr Hm.
  rewrite experiment_over_events. cbn [trial_times].
  rewrite trial_times_app. apply Forall_app. split.
  - apply trials_times; assumption.
  - constructor.
Qed.

(** X3.  Under a timer that does not run backwards (and stays in the
    positive range of [int64_t]) every trial of the experiment reports a
    busy time between 0 and the duration of the trial: the accounted
    time never exceeds the wall-clock time. *)
Theorem busy_time_within_duration :
  forall s : state,
    (forall i, 0 <= timer s i < 2 ^ 63) ->
    (forall i j, (i <= j)%nat -> timer s i <= timer s j) ->
    Forall (fun db => 0 <= snd db <= fst db)
           (trial_times (events variable_time_slice_experiment s)).
Proof.
  intros s Hr Hm.
  exact (experiment_over_times time_slices s Hr Hm).
Qed.

Lemma busy_time_within_duration_witness :
  Forall (fun db => 0 <= snd db <= fst db)
         (trial_times (events variable_time_slice_experiment steady)).
Proof.
  apply busy_time_within_duration.
  - intro i. cbn [steady with_timer timer].
    change (2 ^ 63) with 9223372036854775808. lia.
  - intros i j H. cbn [steady with_timer timer]. lia.
Defined.
End TimeSharingMore.

Module TimeSharingBackground.
Import TimeSharing TimeSharingFacts TimeSharingExperiment TimeSharingStatistics
       TimeSharingMore TimeSharingReport.
Local Open Scope sim_scope.

(** X4.  Within a window without reset, under a timer that does not run
    backwards and as long as nothing wraps, the counters only grow:
    [context_switches] and [task_counter] advance by one per dispatch and
    the accumulated busy time never decreases. *)
Theorem counters_monotone :
  forall (ts : Z) (n : nat) (s : state),
    (forall i, 0 <= timer s i < 2 ^ 63) ->
    (forall i j, (i <= j)%nat -> timer s i <= timer s j) ->
    0 <= context_switch_time s ->
    context_switch_time s +
      (timer s (timer_reads s + 2 * n)%nat - timer s (timer_reads s)) < 2 ^ 64 ->
    0 <= context_switches s -> context_switches s + Z.of_nat n < 2 ^ 32 ->
    0 <= task_counter s -> task_counter s + Z.of_nat n < 2 ^ 32 ->
    let s' := exec (dispatch_cycles n ts) s in
    context_switches s' = context_switches s + Z.of_nat n /\
    task_counter s' = task_counter s + Z.of_nat n /\
    context_switch_time s <= context_switch_time s' <=
      context_switch_time s +
      (timer s (timer_reads s + 2 * n)%nat - timer s (timer_reads s)).
Proof.
  intros ts n s Hr Hm B0 B1 C0 C1 T0 T1 s'.
  destruct (dispatch_cycles_counts ts n s ltac:(lia) ltac:(lia)) as (T & C).
  destruct (dispatch_cycles_state ts n s) as (_ & _ & B & _).
  fold s' in T, C, B. rewrite T, C, B, !u32_small by lia.
  split; [reflexivity|]. split; [reflexivity|].
  apply accumulated_bound; assumption.
Qed.

Lemma counters_monotone_witness :
  context_switches (exec (dispatch_cycles 7 50) steady) = 7 /\
  task_counter (exec (dispatch_cycles 7 50) steady) = 7 /\
  0 <= context_switch_time (exec (dispatch_cycles 7 50) steady) <= 14000.
Proof.
  apply (counters_monotone 50 7 steady).
  - intro i. cbn [steady with_timer timer].
    change (2 ^ 63) with 9223372036854775808. lia.
  - intros i j H. cbn [steady with_timer timer]. lia.
  - reflexivity.
  - reflexivity.
  - discriminate.
  - reflexivity.
  - discriminate.
  - reflexivity.
Defined.

Lemma report_statistics_state s :
  let s' := exec report_statistics s in
  context_switches s' = context_switches s /\
  run_manual_scheduler s' = run_manual_scheduler s /\
  task_counter s' = task_counter s /\
  context_switch_time s' = context_switch_time s /\
  current_time_slice_ms s' = current_time_slice_ms s /\
  round_count s' =
    (if report_due (context_switches s) then u32 (round_count s + 1) else round_count s).
Proof.
  unfold exec, report_statistics. cbn [bind gets fst snd].
  destruct (report_due (context_switches s)); cbn; repeat split.
Qed.

Lemma manual_task_iteration_exec s :
  exec manual_task_iteration s =
  if run_manual_scheduler s
  then exec report_statistics (exec (dispatch_cycle (current_time_slice_ms s)) s)
  else s.
Proof.
  unfold manual_task_iteration, exec. cbn [bind gets fst snd].
  destruct (run_manual_scheduler s); reflexivity.
Qed.

Lemma report_statistics_count s :
  List.length (round_stats (events report_statistics s)) =
  if report_due (context_switches s) then 1%nat else 0%nat.
Proof.
  rewrite report_statistics_events.
  destruct (report_due (context_switches s)); reflexivity.
Qed.

Lemma report_due_step c :
  0 <= c ->
  Z.of_nat (if report_due (c + 1) then 1%nat else 0%nat) = (c + 1) / 20 - c / 20.
Proof.
  intro H. unfold report_due.
  destruct (Z.ltb_spec 0 (c + 1)); [|lia].
  destruct (Z.eqb_spec ((c + 1) mod 20) 0); cbn [andb];
    Z.div_mod_to_equations; lia.
Qed.

Lemma manual_task_iteration_round_stats s :
  round_stats (events manual_task_iteration s) =
  (if run_manual_scheduler s
   then round_stats
          (events report_statistics (exec (dispatch_cycle (current_time_slice_ms s)) s))
   else []).
Proof.
  rewrite manual_task_iteration_events.
  destruct (run_manual_scheduler s); [|reflexivity].
  rewrite round_stats_app, round_stats_cycle. reflexivity.
Qed.

(** X5.  While the scheduler is enabled [manual_task] prints its
    statistics once every 20 turns: in [n] turns started with
    [context_switches = c] it prints [(c + n) / 20 - c / 20] reports and
    advances [round_count] by as many. *)
Theorem reports_every_twenty :
  forall (n : nat) (s : state),
    run_manual_scheduler s = true ->
    0 <= context_switches s ->
    context_switches s + Z.of_nat n < 2 ^ 32 ->
    let c := context_switches s in
    let s' := exec (repeatM n manual_task_iteration) s in
    Z.of_nat (List.length (round_stats (events (repeatM n manual_task_iteration) s))) =
      (c + Z.of_nat n) / 20 - c / 20 /\
    u32 (round_count s') = u32 (round_count s + ((c + Z.of_nat n) / 20 - c / 20)) /\
    context_switches s' = c + Z.of_nat n /\
    run_manual_scheduler s' = true.
Proof.
  induction n as [|n IH]; intros s R C0 C1 c s'.
  - subst s' c. rewrite exec_repeatM_O, events_repeatM_O.
    rewrite !Z.add_0_r, Z.sub_diag, Z.add_0_r. repeat split; assumption.
  - subst s'. rewrite exec_repeatM_S, events_repeatM_S.
    rewrite round_stats_app, length_app, Nat2Z.inj_add.
    pose proof (manual_task_iteration_exec s) as X. rewrite R in X.
    pose proof (manual_task_iteration_round_stats s) as PS. rewrite R in PS.
    rewrite PS, report_statistics_count.
    destruct (dispatch_cycle_state (current_time_slice_ms s) s)
      as (_ & Cs & _ & Rs & _ & Rd & _).
    destruct (report_statistics_state (exec (dispatch_cycle (current_time_slice_ms s)) s))
      as (C2 & R2 & _ & _ & _ & Rd2).
    cbv zeta in *. rewrite <- X in C2, R2, Rd2.
    rewrite Cs in C2, Rd2. rewrite Rs in R2. rewrite Rd in Rd2.
    rewrite (u32_small (context_switches s + 1)) in * by lia.
    specialize (IH (exec manual_task_iteration s)).
    rewrite R2, C2 in IH.
    destruct (IH R ltac:(lia) ltac:(lia)) as (I1 & I2 & I3 & I4).
    rewrite Cs, I1, I2, I3, I4, Rd2.
    subst c. set (c := context_switches s) in *.
    pose proof (report_due_step c C0) as RS.
    replace (c + 1 + Z.of_nat n) with (c + Z.of_nat (S n)) in * by lia.
    split; [lia|]. split; [|split; [reflexivity | reflexivity]].
    destruct (report_due (c + 1)).
    + unfold u32. rewrite Zplus_mod_idemp_l. f_equal. lia.
    + f_equal. lia.
Qed.

Lemma reports_every_twenty_witness :
  run_manual_scheduler boot = true /\
  Z.of_nat (List.length (round_stats (events (repeatM 45 manual_task_iteration) boot))) = 2.
Proof.
  split; [reflexivity|].
  refine (proj1 (reports_every_twenty 45 boot eq_refl _ _)).
  - discriminate.
  - reflexivity.
Defined.

(** X6.  While the scheduler is paused ([run_manual_scheduler] false)
    the background task dispatches nothing: any number of its turns
    leaves every variable as it was and only sleeps 100 ms per turn. *)
Theorem paused_task_is_idle :
  forall (n : nat) (s : state),
    run_manual_scheduler s = false ->
    exec (repeatM n manual_task_iteration) s = s /\
    events (repeatM n manual_task_iteration) s = repeat (EvDelayMs 100) n.
Proof.
  induction n as [|n IH]; intros s R; [split; reflexivity|].
  rewrite exec_repeatM_S, events_repeatM_S.
  rewrite manual_task_iteration_exec, manual_task_iteration_events, R.
  destruct (IH s R) as (E1 & E2). rewrite E1, E2. split; reflexivity.
Qed.

Lemma paused_task_is_idle_witness :
  exec (repeatM 3 manual_task_iteration) (set_run_manual_scheduler false midrun) =
  set_run_manual_scheduler false midrun.
Proof.
  exact (proj1 (paused_task_is_idle 3 (set_run_manual_scheduler false midrun) eq_refl)).
Defined.

Lemma timed_trial_counters ts (cycles : Sim unit) tc busy cs s :
  events (timed_trial ts cycles) (with_counters tc busy cs s) =
  events (timed_trial ts cycles) s /\
  exec (timed_trial ts cycles) (with_counters tc busy cs s) =
  exec (timed_trial ts cycles) s.
Proof. split; reflexivity. Qed.

Lemma slice_trial_counters ts tc busy cs s :
  events (slice_trial ts) (with_counters tc busy cs s) = events (slice_trial ts) s /\
  exec (slice_trial ts) (with_counters tc busy cs s) = exec (slice_trial ts) s.
Proof. exact (timed_trial_counters ts (dispatch_cycles iterations ts) tc busy cs s). Qed.

Lemma forM_cons_events ts (r : list Z) s :
  events (forM (ts :: r) slice_trial) s =
  events (slice_trial ts) s ++ events (forM r slice_trial) (exec (slice_trial ts) s).
Proof. reflexivity. Qed.

Lemma forM_cons_exec ts (r : list Z) s :
  exec (forM (ts :: r) slice_trial) s =
  exec (forM r slice_trial) (exec (slice_trial ts) s).
Proof. reflexivity. Qed.

(** X7.  The experiment does not depend on what the three counters held
    before it: started with any other values of [task_counter],
    [context_switch_time] and [context_switches] it prints the same log
    and ends in the same state. *)
Theorem experiment_ignores_old_counters :
  forall (slices : list Z) (tc busy cs : Z) (s : state),
    slices <> [] ->
    events (experiment_over slices) (with_counters tc busy cs s) =
    events (experiment_over slices) s /\
    exec (experiment_over slices) (with_counters tc busy cs s) =
    exec (experiment_over slices) s.
Proof.
  intros slices tc busy cs s H.
  destruct slices as [|ts r]; [congruence|].
  rewrite !experiment_over_events, !experiment_over_exec.
  change (set_run_manual_scheduler false (with_counters tc busy cs s))
    with (with_counters tc busy cs (set_run_manual_scheduler false s)).
  destruct (slice_trial_counters ts tc busy cs (set_run_manual_scheduler false s))
    as (E1 & E2).
  rewrite !forM_cons_events, !forM_cons_exec, E1, E2. split; reflexivity.
Qed.

Lemma experiment_ignores_old_counters_witness :
  events variable_time_slice_experiment (with_counters 7 123456 1234 boot) =
  events variable_time_slice_experiment boot.
Proof.
  refine (proj1 (experiment_ignores_old_counters time_slices 7 123456 1234 boot _)).
  discriminate.
Defined.
End TimeSharingBackground.

(** ** Further properties of the cooperative scheduler *)

Module CooperativeMore.
Import Cooperative CooperativeFacts CooperativeRuns CooperativeEmergency.
Local Open Scope sim_scope.

Lemma work_steps_calm_events task led work (n : nat) s :
  emergency_flag s = false ->
  events (work_steps task led work n) s =
  List.concat (repeat [EvWork work; EvDelayTicks 1] n).
Proof.
  intro H. induction n as [|n IH]; [reflexivity|].
  unfold events in *. cbn [work_steps bind gets emit fst snd app]. rewrite H.
  cbn [bind emit fst snd app repeat List.concat]. now rewrite IH.
Qed.

(** X8.  Without an emergency a cooperative task does its whole quota:
    five (task 1) or ten (task 2) work units, a one-tick voluntary yield
    after each of them, then its LED off; of the variables it changes its
    own call counter only. *)
Theorem calm_task_completes_quota :
  forall s : state,
    emergency_flag s = false ->
    events cooperative_task1 s =
      [EvRunning 1 (task1_count s); EvGpio LED1_PIN 1] ++
      List.concat (repeat [EvWork 50000; EvDelayTicks 1] 5) ++ [EvGpio LED1_PIN 0] /\
    events cooperative_task2 s =
      [EvRunning 2 (task2_count s); EvGpio LED2_PIN 1] ++
      List.concat (repeat [EvWork 30000; EvDelayTicks 1] 10) ++ [EvGpio LED2_PIN 0] /\
    work_units (events cooperative_task1 s) = TASK1_QUOTA /\
    work_units (events cooperative_task2 s) = TASK2_QUOTA /\
    exec cooperative_task1 s = set_task1_count (u32 (task1_count s + 1)) s /\
    exec cooperative_task2 s = set_task2_count (u32 (task2_count s + 1)) s.
Proof.
  intros s H.
  assert (E1 : events cooperative_task1 s =
               [EvRunning 1 (task1_count s); EvGpio LED1_PIN 1] ++
               List.concat (repeat [EvWork 50000; EvDelayTicks 1] 5) ++ [EvGpio LED1_PIN 0]).
  { unfold cooperative_task1. rewrite !events_bind, ?exec_bind, ?value_bind.
    rewrite work_steps_calm_events by exact H.
    match goal with
    | |- context [value (work_steps ?a ?b ?c ?d) ?x] =>
        rewrite (proj1 (work_steps_calm a b c d x H))
    end. reflexivity. }
  assert (E2 : events cooperative_task2 s =
               [EvRunning 2 (task2_count s); EvGpio LED2_PIN 1] ++
               List.concat (repeat [EvWork 30000; EvDelayTicks 1] 10) ++ [EvGpio LED2_PIN 0]).
  { unfold cooperative_task2. rewrite !events_bind, ?exec_bind, ?value_bind.
    rewrite work_steps_calm_events by exact H.
    match goal with
    | |- context [value (work_steps ?a ?b ?c ?d) ?x] =>
        rewrite (proj1 (work_steps_calm a b c d x H))
    end. reflexivity. }
  split; [exact E1|]. split; [exact E2|].
  rewrite E1, E2, cooperative_task1_exec, cooperative_task2_exec.
  repeat split.
Qed.

Lemma calm_task_completes_quota_witness :
  emergency_flag idle = false /\
  work_units (events cooperative_task1 idle) = 5%nat /\
  work_units (events cooperative_task2 idle) = 10%nat.
Proof.
  split; [reflexivity|].
  destruct (calm_task_completes_quota idle eq_refl) as (_ & _ & W1 & W2 & _).
  split; [exact W1 | exact W2].
Defined.

(** X12.  The index into the task table stays within the table: after any
    number of turns [current_task] is one of 0, 1, 2, so the entry the
    next turn calls exists. *)
Theorem current_task_in_bounds :
  forall (k : nat) (s : state),
    let c := value (cooperative_scheduler k) s in
    0 <= c < num_tasks /\
    c = Z.of_nat k mod 3 /\
    nth_error tasks (Z.to_nat c) <> None.
Proof.
  intros k s c. subst c. unfold cooperative_scheduler.
  rewrite scheduler_turns_value by (unfold num_tasks; cbn; lia).
  change num_tasks with 3. rewrite Z.add_0_l.
  pose proof (Z.mod_pos_bound (Z.of_nat k) 3 ltac:(lia)) as B.
  split; [exact B|]. split; [reflexivity|].
  assert (C : Z.of_nat k mod 3 = 0 \/ Z.of_nat k mod 3 = 1 \/ Z.of_nat k mod 3 = 2) by lia.
  destruct C as [ -> | [ -> | -> ] ]; discriminate.
Qed.

(** The state a turn leaves is that of its task, called after the button
    check. *)
Lemma turn_step (k : nat) s :
  exec (cooperative_scheduler (S k)) s =
  exec (run_current (Z.of_nat k mod 3)) (at_call k s).
Proof.
  unfold at_call, cooperative_scheduler. rewrite <- Nat.add_1_r.
  destruct (scheduler_turns_add k 1 0 s) as (E & _). rewrite E.
  rewrite scheduler_turns_S_exec, scheduler_turn_exec.
  rewrite scheduler_turns_value by (unfold num_tasks; cbn; lia).
  reflexivity.
Qed.

Lemma turn_events_split (k : nat) s :
  turn_events k s =
  events check_button (exec (cooperative_scheduler k) s) ++
  events (run_current (Z.of_nat k mod 3)) (at_call k s) ++ [EvDelayMs 10].
Proof.
  unfold turn_events, at_call, cooperative_scheduler.
  rewrite scheduler_turns_value by (unfold num_tasks; cbn; lia).
  apply scheduler_turn_events.
Qed.

Lemma run_current_handler s :
  exec (run_current 2) s = exec cooperative_task3_emergency s /\
  events (run_current 2) s = EvCall 2 :: events cooperative_task3_emergency s.
Proof. split; reflexivity. Qed.

(** A normal task leaves the flag and the time of the press alone. *)
Lemma run_current_normal c s :
  c = 0 \/ c = 1 ->
  emergency_flag (exec (run_current c) s) = emergency_flag s /\
  task_start_time (exec (run_current c) s) = task_start_time s.
Proof.
  intros [ -> | -> ].
  - change (exec (run_current 0) s) with (exec cooperative_task1 s).
    rewrite cooperative_task1_exec. split; reflexivity.
  - change (exec (run_current 1) s) with (exec cooperative_task2 s).
    rewrite cooperative_task2_exec. split; reflexivity.
Qed.

(** X10.  Every turn of the emergency handler leaves the flag down: after
    each full round of the task table no emergency is pending. *)
Theorem flag_clear_after_round :
  forall (j : nat) (s : state),
    emergency_flag (exec (cooperative_scheduler (3 * j + 3)) s) = false.
Proof.
  intros j s. replace (3 * j + 3)%nat with (S (3 * j + 2)) by lia.
  rewrite turn_step.
  replace (Z.of_nat (3 * j + 2) mod 3) with 2
    by (rewrite Nat2Z.inj_add, Nat2Z.inj_mul; Z.div_mod_to_equations; lia).
  rewrite (proj1 (run_current_handler _)).
  destruct (emergency_flag (at_call (3 * j + 2) s)) eqn:F.
  - apply (handler_raised _ F).
  - rewrite (proj1 (handler_calm _ F)). exact F.
Qed.

Lemma normal_turn_keeps_emergency (k : nat) s :
  Z.of_nat k mod 3 = 0 \/ Z.of_nat k mod 3 = 1 ->
  emergency_flag (at_call k s) = true ->
  emergency_flag (at_call (S k) s) = true /\
  task_start_time (at_call (S k) s) = task_start_time (at_call k s).
Proof.
  intros C F.
  change (at_call (S k) s) with (exec check_button (exec (cooperative_scheduler (S k)) s)).
  rewrite turn_step.
  destruct (run_current_normal _ (at_call k s) C) as (Fl & St).
  rewrite F in Fl.
  destruct (check_button_raised _ Fl) as (_ & X). rewrite X.
  cbn [set_button_reads emergency_flag task_start_time].
  split; assumption.
Qed.

Lemma handler_turn_responds (k : nat) s :
  Z.of_nat k mod 3 = 2 ->
  emergency_flag (at_call k s) = true ->
  responded (turn_events k s) = true /\
  emergency_flag (exec (cooperative_scheduler (S k)) s) = false.
Proof.
  intros C F. rewrite turn_events_split, turn_step, C.
  destruct (run_current_handler (at_call k s)) as (E1 & E2). rewrite E1, E2.
  destruct (handler_raised _ F) as (_ & Fl & _ & Ev). cbv zeta in Fl.
  split; [|exact Fl].
  unfold responded. rewrite existsb_app, Ev. cbn. apply orb_true_r.
Qed.

(** X11.  An emergency pending when a task is called is answered by the
    next turn of the handler, at most two turns later: until then the
    flag stays raised and the recorded time of the press is not
    overwritten, and the handler's turn prints the response and clears
    the flag. *)
Theorem emergency_answered_within_round :
  forall (k : nat) (s : state),
    emergency_flag (at_call k s) = true ->
    let h := (k + Z.to_nat (2 - Z.of_nat k mod 3))%nat in
    (h <= k + 2)%nat /\
    Z.of_nat h mod 3 = 2 /\
    task_start_time (at_call h s) = task_start_time (at_call k s) /\
    responded (turn_events h s) = true /\
    emergency_flag (exec (cooperative_scheduler (S h)) s) = false.
Proof.
  intros k s F h.
  pose proof (Z.mod_pos_bound (Z.of_nat k) 3 ltac:(lia)) as B.
  assert (C : Z.of_nat k mod 3 = 0 \/ Z.of_nat k mod 3 = 1 \/ Z.of_nat k mod 3 = 2) by lia.
  destruct C as [C|[C|C]]; subst h; rewrite C;
    [ change (Z.to_nat (2 - 0)) with 2%nat
    | change (Z.to_nat (2 - 1)) with 1%nat
    | change (Z.to_nat (2 - 2)) with 0%nat ].
  - assert (C1 : Z.of_nat (S k) mod 3 = 1) by (rewrite Nat2Z.inj_succ; Z.div_mod_to_equations; lia).
    assert (C2 : Z.of_nat (S (S k)) mod 3 = 2) by (rewrite !Nat2Z.inj_succ; Z.div_mod_to_equations; lia).
    destruct (normal_turn_keeps_emergency k s (or_introl C) F) as (F1 & S1).
    destruct (normal_turn_keeps_emergency (S k) s (or_intror C1) F1) as (F2 & S2).
    destruct (handler_turn_responds (S (S k)) s C2 F2) as (R & Fl).
    replace (k + 2)%nat with (S (S k)) by lia.
    split; [lia|]. split; [exact C2|]. split; [congruence|]. split; assumption.
  - assert (C2 : Z.of_nat (S k) mod 3 = 2) by (rewrite Nat2Z.inj_succ; Z.div_mod_to_equations; lia).
    destruct (normal_turn_keeps_emergency k s (or_intror C) F) as (F1 & S1).
    destruct (handler_turn_responds (S k) s C2 F1) as (R & Fl).
    replace (k + 1)%nat with (S k) by lia.
    split; [lia|]. split; [exact C2|]. split; [exact S1|]. split; assumption.
  - destruct (handler_turn_responds k s C F) as (R & Fl).
    replace (k + 0)%nat with k by lia.
    split; [lia|]. split; [exact C|]. split; [reflexivity|]. split; assumption.
Qed.

Lemma emergency_answered_within_round_witness :
  emergency_flag (at_call 0 pressed) = true /\
  responded (turn_events 2 pressed) = true.
Proof.
  split; [reflexivity|].
  exact (proj1 (proj2 (proj2 (proj2 (emergency_answered_within_round 0 pressed eq_refl))))).
Defined.
End CooperativeMore.

(** ** The priority-inversion demonstration *)

Module PriorityDemoFacts.
Import PriorityDemo.
Local Open Scope sim_scope.

Lemma wait_busy (fuel : nat) s :
  observed s (observations s) = true ->
  value (wait_for_resource (S fuel)) s =
    value (wait_for_resource fuel) (set_observations (S (observations s)) s) /\
  events (wait_for_resource (S fuel)) s =
    EvBlocked :: EvDelayMs 10 ::
    events (wait_for_resource fuel) (set_observations (S (observations s)) s) /\
  exec (wait_for_resource (S fuel)) s =
    exec (wait_for_resource fuel) (set_observations (S (observations s)) s).
Proof.
  intro H. unfold value, events, exec.
  cbn [wait_for_resource bind observe_busy fst snd app]. rewrite H.
  repeat split.
Qed.

Lemma wait_free (fuel : nat) s :
  observed s (observations s) = false ->
  value (wait_for_resource (S fuel)) s = true /\
  events (wait_for_resource (S fuel)) s = [] /\
  exec (wait_for_resource (S fuel)) s = set_observations (S (observations s)) s.
Proof.
  intro H. unfold value, events, exec.
  cbn [wait_for_resource bind observe_busy fst snd app]. rewrite H.
  repeat split.
Qed.

(** The waiting loop, when the resource is seen busy [r] times and then
    free. *)
Lemma wait_acquires (r : nat) :
  forall (fuel : nat) s,
    (forall i, (i < r)%nat -> observed s (observations s + i) = true) ->
    observed s (observations s + r) = false ->
    (r < fuel)%nat ->
    value (wait_for_resource fuel) s = true /\
    events (wait_for_resource fuel) s = List.concat (repeat [EvBlocked; EvDelayMs 10] r) /\
    observations (exec (wait_for_resource fuel) s) = (observations s + r + 1)%nat /\
    shared_resource_busy (exec (wait_for_resource fuel) s) = shared_resource_busy s /\
    priority_test_running (exec (wait_for_resource fuel) s) = priority_test_running s.
Proof.
  induction r as [|r IH]; intros fuel s Hb Hf Hfuel;
    (destruct fuel as [|fuel]; [lia|]).
  - rewrite Nat.add_0_r in Hf.
    destruct (wait_free fuel s Hf) as (V & E & X). rewrite V, E, X.
    cbn. repeat split. lia.
  - pose proof (Hb 0%nat ltac:(lia)) as H0. rewrite Nat.add_0_r in H0.
    destruct (wait_busy fuel s H0) as (V & E & X). rewrite V, E, X.
    destruct (IH fuel (set_observations (S (observations s)) s)) as (V' & E' & O' & B' & R').
    + intros i Hi. cbn [set_observations observed observations].
      replace (S (observations s) + i)%nat with (observations s + S i)%nat by lia.
      apply Hb. lia.
    + cbn [set_observations observed observations].
      replace (S (observations s) + r)%nat with (observations s + S r)%nat by lia.
      exact Hf.
    + lia.
    + rewrite V', E', O', B', R'. cbn [set_observations observations repeat List.concat app
        shared_resource_busy priority_test_running].
      repeat split. lia.
Qed.

(** The waiting loop, while the resource is seen busy. *)
Lemma wait_blocked (fuel : nat) :
  forall s,
    (forall i, (i < fuel)%nat -> observed s (observations s + i) = true) ->
    value (wait_for_resource fuel) s = false /\
    events (wait_for_resource fuel) s = List.concat (repeat [EvBlocked; EvDelayMs 10] fuel).
Proof.
  induction fuel as [|fuel IH]; intros s Hb; [split; reflexivity|].
  pose proof (Hb 0%nat ltac:(lia)) as H0. rewrite Nat.add_0_r in H0.
  destruct (wait_busy fuel s H0) as (V & E & _). rewrite V, E.
  destruct (IH (set_observations (S (observations s)) s)) as (V' & E').
  - intros i Hi. cbn [set_observations observed observations].
    replace (S (observations s) + i)%nat with (observations s + S i)%nat by lia.
    apply Hb. lia.
  - rewrite V', E'. split; reflexivity.
Qed.

Lemma blocked_count_repeat (r : nat) :
  blocked_count (List.concat (repeat [EvBlocked; EvDelayMs 10] r)) = r.
Proof.
  induction r as [|r IH]; [reflexivity|].
  unfold blocked_count in *. cbn. now rewrite IH.
Qed.

Lemma got_resource_repeat (r : nat) :
  got_resource (List.concat (repeat [EvBlocked; EvDelayMs 10] r)) = false.
Proof. induction r as [|r IH]; [reflexivity|]. cbn. exact IH. Qed.

(** X13.  The high-priority task polls [shared_resource_busy] every
    10 ms: when it sees the resource busy [r] times and free at the next
    read, its turn prints "BLOCKED" exactly [r] times, then that it got
    the resource, after [r + 1] reads; and as long as every read sees the
    resource busy it never prints that it got it. *)
Theorem high_task_polls_until_free :
  forall (r fuel : nat) (s : state),
    priority_test_running s = true ->
    (forall i, (i < r)%nat -> observed s (observations s + i) = true) ->
    (observed s (observations s + r) = false -> (r < fuel)%nat ->
     value (priority_inversion_high fuel) s = Some tt /\
     events (priority_inversion_high fuel) s =
       EvNeeds :: List.concat (repeat [EvBlocked; EvDelayMs 10] r) ++
       [EvGotResource; EvDelayMs 1000] /\
     blocked_count (events (priority_inversion_high fuel) s) = r /\
     observations (exec (priority_inversion_high fuel) s) = (observations s + r + 1)%nat) /\
    ((fuel <= r)%nat ->
     value (priority_inversion_high fuel) s = None /\
     got_resource (events (priority_inversion_high fuel) s) = false).
Proof.
  intros r fuel s R Hb. split.
  - intros Hf Hfuel.
    destruct (wait_acquires r fuel s Hb Hf Hfuel) as (V & E & O & _).
    assert (Ev : events (priority_inversion_high fuel) s =
                 EvNeeds :: List.concat (repeat [EvBlocked; EvDelayMs 10] r) ++
                 [EvGotResource; EvDelayMs 1000]).
    { unfold value, events in V, E. unfold priority_inversion_high, events.
      cbn [bind gets emit fst snd app]. rewrite R.
      cbn [bind gets emit fst snd app].
      rewrite V, E. reflexivity. }
    split; [|split; [exact Ev|split]].
    + unfold priority_inversion_high, value in *.
      cbn [bind gets emit fst snd]. rewrite R.
      cbn [bind gets emit fst snd]. rewrite V. reflexivity.
    + rewrite Ev. unfold blocked_count. cbn [filter is_blocked].
      rewrite filter_app, length_app. fold (blocked_count (List.concat (repeat [EvBlocked; EvDelayMs 10] r))).
      rewrite blocked_count_repeat. cbn. lia.
    + unfold priority_inversion_high, exec, value in *.
      cbn [bind gets emit fst snd]. rewrite R.
      cbn [bind gets emit fst snd]. rewrite V. exact O.
  - intro Hfuel.
    destruct (wait_blocked fuel s) as (V & E).
    { intros i Hi. apply Hb. lia. }
    unfold priority_inversion_high, value, events in *.
    cbn [bind gets emit fst snd app]. rewrite R.
    cbn [bind gets emit fst snd app]. rewrite V, E.
    split; [reflexivity|]. cbn [got_resource existsb orb].
    rewrite app_nil_r. apply got_resource_repeat.
Qed.

Lemma high_task_polls_until_free_witness :
  priority_test_running (held_for 3) = true /\
  blocked_count (events (priority_inversion_high 10) (held_for 3)) = 3%nat /\
  got_resource (events (priority_inversion_high 2) (held_for 3)) = false.
Proof.
  split; [reflexivity|].
  assert (Hb : forall i, (i < 3)%nat ->
                 observed (held_for 3) (observations (held_for 3) + i) = true).
  { intros i Hi. cbn [held_for observed observations Nat.add].
    apply Nat.ltb_lt. exact Hi. }
  destruct (high_task_polls_until_free 3 10 (held_for 3) eq_refl Hb) as (A & _).
  destruct (high_task_polls_until_free 3 2 (held_for 3) eq_refl Hb) as (_ & B).
  split.
  - apply A; [reflexivity | lia].
  - apply B. lia.
Defined.

Lemma low_turn s :
  shared_resource_busy s = false ->
  shared_resource_busy (exec priority_inversion_low s) = false /\
  priority_test_running (exec priority_inversion_low s) = priority_test_running s /\
  events priority_inversion_low s =
    if priority_test_running s
    then [EvUsing; EvDelayMs 2000; EvReleased; EvDelayMs 3000]
    else [EvDelayMs 3000].
Proof.
  intro H. unfold priority_inversion_low, exec, events.
  cbn [bind gets fst snd]. destruct (priority_test_running s) eqn:R; cbn; rewrite ?R, ?H;
    repeat split.
Qed.

(** X14.  The low-priority task releases the resource in the turn in
    which it takes it: after any number of its turns the resource is
    free again, the test running or not, and each use is one delay of
    2000 ms between taking and releasing. *)
Theorem low_task_releases :
  forall (n : nat) (s : state),
    shared_resource_busy s = false ->
    shared_resource_busy (exec (repeatM n priority_inversion_low) s) = false /\
    events (repeatM n priority_inversion_low) s =
      List.concat
        (repeat (if priority_test_running s
                 then [EvUsing; EvDelayMs 2000; EvReleased; EvDelayMs 3000]
                 else [EvDelayMs 3000]) n).
Proof.
  induction n as [|n IH]; intros s H; [split; [exact H | reflexivity]|].
  rewrite exec_repeatM_S, events_repeatM_S.
  destruct (low_turn s H) as (B & R & E).
  destruct (IH (exec priority_inversion_low s) B) as (B' & E').
  rewrite B', E', E, R. split; reflexivity.
Qed.

Lemma low_task_releases_witness :
  shared_resource_busy (exec (repeatM 4 priority_inversion_low) (held_for 0)) = false.
Proof.
  exact (proj1 (low_task_releases 4 (held_for 0) eq_refl)).
Defined.
End PriorityDemoFacts.

Module SchedulerRuns.
Import TimeSharing TimeSharingFacts TimeSharingStatistics TimeSharingMore
       TimeSharingBackground.
Local Open Scope sim_scope.

Lemma report_statistics_no_selection t s :
  selections t (events report_statistics s) = 0%nat.
Proof.
  rewrite report_statistics_events.
  destruct (report_due (context_switches s)); reflexivity.
Qed.

Lemma manual_task_iteration_selections t s :
  run_manual_scheduler s = true ->
  selections t (events manual_task_iteration s) =
    (if task_index t =? task_counter s mod TASK_COUNT then 1%nat else 0%nat) /\
  task_counter (exec manual_task_iteration s) = u32 (task_counter s + 1) /\
  run_manual_scheduler (exec manual_task_iteration s) = true.
Proof.
  intro R.
  rewrite manual_task_iteration_events, manual_task_iteration_exec, R.
  rewrite selections_app, report_statistics_no_selection, cycle_selections, Nat.add_0_r.
  destruct (report_statistics_state (exec (dispatch_cycle (current_time_slice_ms s)) s))
    as (_ & R2 & T2 & _).
  destruct (dispatch_cycle_state (current_time_slice_ms s) s) as (T & _ & _ & R1 & _).
  cbv zeta in *. rewrite T2, R2, T, R1. repeat split. exact R.
Qed.

(** X15.  The background task serves the registry round-robin from
    wherever [task_counter] stands: in [n] turns with the scheduler
    enabled, started with [task_counter mod 4 = c], the task of index [i]
    is selected [(c + n + 3 - i) / 4 - (c + 3 - i) / 4] times, the
    periodic reports in between changing nothing to that; in particular
    each task is selected [m] times in [4 * m] turns. *)
Theorem background_round_robin :
  forall (n : nat) (s : state) (t : task_id_t),
    run_manual_scheduler s = true ->
    let c := task_counter s mod TASK_COUNT in
    let i := task_index t in
    Z.of_nat (selections t (events (repeatM n manual_task_iteration) s)) =
      (c + Z.of_nat n + 3 - i) / 4 - (c + 3 - i) / 4 /\
    (Z.of_nat n mod 4 = 0 ->
     Z.of_nat (selections t (events (repeatM n manual_task_iteration) s)) = Z.of_nat n / 4).
Proof.
  intros n s t R c i.
  assert (G : Z.of_nat (selections t (events (repeatM n manual_task_iteration) s)) =
              (c + Z.of_nat n + 3 - i) / 4 - (c + 3 - i) / 4).
  { subst c i. revert s R. induction n as [|n IH]; intros s R.
    - rewrite events_repeatM_O. cbn [selections filter List.length Z.of_nat].
      rewrite Z.add_0_r. lia.
    - rewrite events_repeatM_S, selections_app, Nat2Z.inj_add.
      destruct (manual_task_iteration_selections t s R) as (S1 & T1 & R1).
      rewrite S1, (IH _ R1), T1. unfold TASK_COUNT. rewrite u32_mod4.
      rewrite Nat2Z.inj_succ.
      pose proof (Z.mod_pos_bound (task_counter s) 4 ltac:(lia)) as B.
      destruct (Z.eqb_spec (task_index t) (task_counter s mod 4));
        destruct t; cbn [task_index] in *; cbn [Z.of_nat];
        Z.div_mod_to_equations; lia. }
  split; [exact G|].
  intro H. rewrite G. subst c i. unfold TASK_COUNT.
  pose proof (Z.mod_pos_bound (task_counter s) 4 ltac:(lia)) as B.
  destruct t; cbn [task_index]; Z.div_mod_to_equations; lia.
Qed.

Lemma background_round_robin_witness :
  run_manual_scheduler midrun = true /\
  Z.of_nat (selections TASK_DISPLAY (events (repeatM 8 manual_task_iteration) midrun)) = 2.
Proof.
  split; [reflexivity|].
  exact (proj2 (background_round_robin 8 midrun TASK_DISPLAY eq_refl) eq_refl).
Defined.
End SchedulerRuns.

Module CooperativeMaximum.
Import Cooperative CooperativeFacts CooperativeRuns CooperativeEmergency CooperativeMore.
Local Open Scope sim_scope.

Lemma latencies_app l1 l2 : latencies (l1 ++ l2) = latencies l1 ++ latencies l2.
Proof.
  induction l1 as [|e l1 IH]; [reflexivity|].
  destruct e; cbn; now rewrite ?IH.
Qed.

Lemma work_steps_no_latency task led work (n : nat) s :
  latencies (events (work_steps task led work n) s) = [].
Proof.
  induction n as [|n IH]; [reflexivity|].
  unfold events in *. cbn [work_steps bind gets emit fst snd app].
  destruct (emergency_flag s); [reflexivity|].
  cbn [bind emit fst snd app latencies]. exact IH.
Qed.

Lemma cooperative_task1_no_latency s : latencies (events cooperative_task1 s) = [].
Proof.
  unfold cooperative_task1. rewrite !events_bind, !latencies_app.
  rewrite work_steps_no_latency. destruct (value (work_steps _ _ _ _) _); reflexivity.
Qed.

Lemma cooperative_task2_no_latency s : latencies (events cooperative_task2 s) = [].
Proof.
  unfold cooperative_task2. rewrite !events_bind, !latencies_app.
  rewrite work_steps_no_latency. destruct (value (work_steps _ _ _ _) _); reflexivity.
Qed.

Lemma check_button_no_latency s : latencies (events check_button s) = [].
Proof.
  unfold check_button, events. cbn [bind gets gpio_get_level_button fst snd app].
  destruct (_ && _); reflexivity.
Qed.

(** The handler keeps [max_response_time] the maximum of the latencies it
    prints. *)
Lemma handler_maximum s :
  max_response_time (exec cooperative_task3_emergency s) =
  fold_left Z.max (latencies (events cooperative_task3_emergency s)) (max_response_time s).
Proof.
  destruct (emergency_flag s) eqn:F.
  - destruct (handler_raised s F) as (M & _ & _ & E). cbv zeta in M.
    rewrite M, E. reflexivity.
  - destruct (handler_calm s F) as (X & E). rewrite X, E. reflexivity.
Qed.

Lemma run_current_maximum c s :
  max_response_time (exec (run_current c) s) =
  fold_left Z.max (latencies (events (run_current c) s)) (max_response_time s).
Proof.
  unfold run_current, tasks.
  destruct (Z.to_nat c) as [|[|[|n]]]; cbn [nth_error ready task_function].
  - rewrite exec_bind, events_bind, latencies_app, cooperative_task1_no_latency.
    change (exec (emit (EvCall c)) s) with s. rewrite cooperative_task1_exec. reflexivity.
  - rewrite exec_bind, events_bind, latencies_app, cooperative_task2_no_latency.
    change (exec (emit (EvCall c)) s) with s. rewrite cooperative_task2_exec. reflexivity.
  - rewrite exec_bind, events_bind, latencies_app.
    change (exec (emit (EvCall c)) s) with s.
    change (value (emit (EvCall c)) s) with tt.
    rewrite handler_maximum. reflexivity.
  - destruct n; reflexivity.
Qed.

Lemma scheduler_turn_maximum c s :
  max_response_time (exec (scheduler_turn c) s) =
  fold_left Z.max (latencies (events (scheduler_turn c) s)) (max_response_time s).
Proof.
  rewrite scheduler_turn_exec, scheduler_turn_events, !latencies_app.
  rewrite check_button_no_latency, run_current_maximum, check_button_max.
  cbn [app latencies]. now rewrite app_nil_r.
Qed.

(** X9.  [max_response_time] is exactly the largest response latency
    seen so far: after any run of the scheduler it is the maximum of its
    initial value and of the latencies of all the emergency responses
    printed during the run. *)
Theorem max_response_is_maximum :
  forall (n : nat) (c : Z) (s : state),
    max_response_time (exec (scheduler_turns n c) s) =
    fold_left Z.max (latencies (events (scheduler_turns n c) s)) (max_response_time s).
Proof.
  induction n as [|n IH]; intros c s; [reflexivity|].
  rewrite scheduler_turns_S_exec, scheduler_turns_S_events, latencies_app, fold_left_app.
  rewrite IH, scheduler_turn_maximum. reflexivity.
Qed.
End CooperativeMaximum.
